(** * TSL2561 luminosity sensor driver (drivers/sensors/tsl2561/tsl2561.c)

    A shallow embedding of the driver and the properties of its bus
    transactions, of its configuration sequencing and of its fixed-point
    lux computation.

    The target is the LPC1343 (ARM Cortex-M3): [unsigned long],
    [unsigned int] and [uint32_t] are 32 bits wide, and unsigned arithmetic
    wraps modulo 2^32. *)

From Stdlib Require Import ZArith Lia List Bool.
From stdpp Require Import base list.
Import ListNotations.

Local Open Scope Z_scope.

(** ** Machine integers *)

Definition u32 (x : Z) : Z := x mod 2 ^ 32.
Definition u16 (x : Z) : Z := x mod 2 ^ 16.
Definition u8 (x : Z) : Z := x mod 2 ^ 8.

(** ** The header tsl2561.h

    The header is not part of the sources at hand. Its enumerations are
    modelled below, and every macro the driver reads is a field of
    [tsl2561_h], so that the driver is a function of the header it is
    compiled against. *)

(** Modelled from the spec: the error kinds of tsl2561.h, which is missing:
    success, the fatal bus initialisation error and the bus transfer error.
    tsl2561.c names the first two. *)
Inductive tsl2561Error_t :=
| TSL2561_ERROR_OK
| TSL2561_ERROR_I2CINIT
| TSL2561_ERROR_I2CBUSY.

(** Modelled from the spec: the three integration times of tsl2561.h, which
    is missing; tsl2561.c names all three. *)
Inductive tsl2561IntegrationTime_t :=
| TSL2561_INTEGRATIONTIME_13MS
| TSL2561_INTEGRATIONTIME_101MS
| TSL2561_INTEGRATIONTIME_402MS.

(** Modelled from the spec: the two gains of tsl2561.h, which is missing;
    tsl2561.c names TSL2561_GAIN_0X, the 1x setting. *)
Inductive tsl2561Gain_t :=
| TSL2561_GAIN_0X
| TSL2561_GAIN_16X.

(** [if (error)] in C: any value but TSL2561_ERROR_OK (zero) is true. *)
Definition is_error (e : tsl2561Error_t) : bool :=
  match e with TSL2561_ERROR_OK => false | _ => true end.

(** One calibration table: the macros TSL2561_LUX_K1x .. TSL2561_LUX_M8x for a
    package suffix x (T or C). *)
Record lux_table := {
  LUX_K1 : Z; LUX_B1 : Z; LUX_M1 : Z;
  LUX_K2 : Z; LUX_B2 : Z; LUX_M2 : Z;
  LUX_K3 : Z; LUX_B3 : Z; LUX_M3 : Z;
  LUX_K4 : Z; LUX_B4 : Z; LUX_M4 : Z;
  LUX_K5 : Z; LUX_B5 : Z; LUX_M5 : Z;
  LUX_K6 : Z; LUX_B6 : Z; LUX_M6 : Z;
  LUX_K7 : Z; LUX_B7 : Z; LUX_M7 : Z;
  LUX_K8 : Z; LUX_B8 : Z; LUX_M8 : Z
}.

Record tsl2561_h := {
  (* i2c.h *)
  I2C_BUFSIZE : Z;
  (* device address and command bits *)
  TSL2561_ADDRESS : Z;
  TSL2561_READBIT : Z;
  TSL2561_COMMAND_BIT : Z;
  TSL2561_WORD_BIT : Z;
  TSL2561_CONTROL_POWERON : Z;
  TSL2561_CONTROL_POWEROFF : Z;
  (* register numbers *)
  TSL2561_REGISTER_CONTROL : Z;
  TSL2561_REGISTER_TIMING : Z;
  TSL2561_REGISTER_CHAN0_LOW : Z;
  TSL2561_REGISTER_CHAN1_LOW : Z;
  (* integer values of the enumerators *)
  integration_value : tsl2561IntegrationTime_t -> Z;
  gain_value : tsl2561Gain_t -> Z;
  (* fixed-point scales of the lux computation *)
  TSL2561_LUX_LUXSCALE : Z;
  TSL2561_LUX_RATIOSCALE : Z;
  TSL2561_LUX_CHSCALE : Z;
  TSL2561_LUX_CHSCALE_TINT0 : Z;
  TSL2561_LUX_CHSCALE_TINT1 : Z;
  (* [#ifdef TSL2561_PACKAGE_CS] and the two calibration tables *)
  TSL2561_PACKAGE_CS : bool;
  TSL2561_LUX_C : lux_table;
  TSL2561_LUX_T : lux_table
}.

(** The values the TAOS data sheet publishes for the device: the T/FN/CL
    table, the CS table, the register map and the timing-register encodings
    (the size of the I2C buffers is an example value). They instantiate the
    header in the examples below. *)
Definition datasheet_T : lux_table := {|
  LUX_K1 := 0x0040; LUX_B1 := 0x01f2; LUX_M1 := 0x01be;
  LUX_K2 := 0x0080; LUX_B2 := 0x0214; LUX_M2 := 0x02d1;
  LUX_K3 := 0x00c0; LUX_B3 := 0x023f; LUX_M3 := 0x037b;
  LUX_K4 := 0x0100; LUX_B4 := 0x0270; LUX_M4 := 0x03fe;
  LUX_K5 := 0x0138; LUX_B5 := 0x016f; LUX_M5 := 0x01fc;
  LUX_K6 := 0x019a; LUX_B6 := 0x00d2; LUX_M6 := 0x00fb;
  LUX_K7 := 0x029a; LUX_B7 := 0x0018; LUX_M7 := 0x0012;
  LUX_K8 := 0x029a; LUX_B8 := 0x0000; LUX_M8 := 0x0000
|}.

Definition datasheet_CS : lux_table := {|
  LUX_K1 := 0x0043; LUX_B1 := 0x0204; LUX_M1 := 0x01ad;
  LUX_K2 := 0x0085; LUX_B2 := 0x0228; LUX_M2 := 0x02c1;
  LUX_K3 := 0x00c8; LUX_B3 := 0x0253; LUX_M3 := 0x0363;
  LUX_K4 := 0x010a; LUX_B4 := 0x0282; LUX_M4 := 0x03df;
  LUX_K5 := 0x014d; LUX_B5 := 0x0177; LUX_M5 := 0x01dd;
  LUX_K6 := 0x019a; LUX_B6 := 0x0101; LUX_M6 := 0x0127;
  LUX_K7 := 0x029a; LUX_B7 := 0x0037; LUX_M7 := 0x002b;
  LUX_K8 := 0x029a; LUX_B8 := 0x0000; LUX_M8 := 0x0000
|}.

Definition datasheet_h (cs : bool) : tsl2561_h := {|
  I2C_BUFSIZE := 6;
  TSL2561_ADDRESS := 0x72;
  TSL2561_READBIT := 0x01;
  TSL2561_COMMAND_BIT := 0x80;
  TSL2561_WORD_BIT := 0x20;
  TSL2561_CONTROL_POWERON := 0x03;
  TSL2561_CONTROL_POWEROFF := 0x00;
  TSL2561_REGISTER_CONTROL := 0x00;
  TSL2561_REGISTER_TIMING := 0x01;
  TSL2561_REGISTER_CHAN0_LOW := 0x0C;
  TSL2561_REGISTER_CHAN1_LOW := 0x0E;
  integration_value := fun t =>
    match t with
    | TSL2561_INTEGRATIONTIME_13MS => 0x00
    | TSL2561_INTEGRATIONTIME_101MS => 0x01
    | TSL2561_INTEGRATIONTIME_402MS => 0x02
    end;
  gain_value := fun g =>
    match g with TSL2561_GAIN_0X => 0x00 | TSL2561_GAIN_16X => 0x10 end;
  TSL2561_LUX_LUXSCALE := 14;
  TSL2561_LUX_RATIOSCALE := 9;
  TSL2561_LUX_CHSCALE := 10;
  TSL2561_LUX_CHSCALE_TINT0 := 0x7517;
  TSL2561_LUX_CHSCALE_TINT1 := 0x0fe7;
  TSL2561_PACKAGE_CS := cs;
  TSL2561_LUX_C := datasheet_CS;
  TSL2561_LUX_T := datasheet_T
|}.

(** ** The illuminance computation: tsl2561CalculateLux *)

Module Lux.

(** The [if]/[else if] chain that assigns [b] and [m]; the two branches of the
    [#ifdef] differ in the suffix of the macros only. [ratio] is an
    [unsigned long], so every macro is converted to it before the comparison.
    When no branch is taken [b] and [m] stay uninitialised: [None]. *)
Definition select_bm (t : lux_table) (ratio : Z) : option (Z * Z) :=
  if (0 <=? ratio) && (ratio <=? u32 (LUX_K1 t))
  then Some (u32 (LUX_B1 t), u32 (LUX_M1 t))
  else if ratio <=? u32 (LUX_K2 t)
  then Some (u32 (LUX_B2 t), u32 (LUX_M2 t))
  else if ratio <=? u32 (LUX_K3 t)
  then Some (u32 (LUX_B3 t), u32 (LUX_M3 t))
  else if ratio <=? u32 (LUX_K4 t)
  then Some (u32 (LUX_B4 t), u32 (LUX_M4 t))
  else if ratio <=? u32 (LUX_K5 t)
  then Some (u32 (LUX_B5 t), u32 (LUX_M5 t))
  else if ratio <=? u32 (LUX_K6 t)
  then Some (u32 (LUX_B6 t), u32 (LUX_M6 t))
  else if ratio <=? u32 (LUX_K7 t)
  then Some (u32 (LUX_B7 t), u32 (LUX_M7 t))
  else if u32 (LUX_K8 t) <? ratio
  then Some (u32 (LUX_B8 t), u32 (LUX_M8 t))
  else None.

Section WithHeader.
Context (h : tsl2561_h).

Definition package_table : lux_table :=
  if TSL2561_PACKAGE_CS h then TSL2561_LUX_C h else TSL2561_LUX_T h.

(** [switch (_tsl2561IntegrationTime)] followed by the gain adjustment. *)
Definition chScale_of (it : tsl2561IntegrationTime_t) (g : tsl2561Gain_t) : Z :=
  let chScale :=
    match it with
    | TSL2561_INTEGRATIONTIME_13MS => u32 (TSL2561_LUX_CHSCALE_TINT0 h)
    | TSL2561_INTEGRATIONTIME_101MS => u32 (TSL2561_LUX_CHSCALE_TINT1 h)
    | _ => u32 (Z.shiftl 1 (TSL2561_LUX_CHSCALE h))
    end in
  if gain_value h g =? 0 then u32 (Z.shiftl chScale 4) else chScale.

(** [channelN = (chN * chScale) >> TSL2561_LUX_CHSCALE] *)
Definition scale_channel (chScale ch : Z) : Z :=
  Z.shiftr (u32 (ch * chScale)) (TSL2561_LUX_CHSCALE h).

(** [ratio1], then [ratio = (ratio1 + 1) >> 1]. *)
Definition rounded_ratio (channel0 channel1 : Z) : Z :=
  let ratio1 :=
    if negb (channel0 =? 0)
    then u32 (Z.shiftl channel1 (TSL2561_LUX_RATIOSCALE h + 1)) / channel0
    else 0 in
  Z.shiftr (u32 (ratio1 + 1)) 1.

(** From [temp = channel0*b - channel1*m] to the returned [lux]. [temp] is an
    [unsigned long]; the test [temp < 0] is written as in the source. *)
Definition lux_of (channel0 channel1 b m : Z) : Z :=
  let temp := u32 (u32 (channel0 * b) - u32 (channel1 * m)) in
  let temp := if temp <? 0 then 0 else temp in
  let temp := u32 (temp + u32 (Z.shiftl 1 (TSL2561_LUX_LUXSCALE h - 1))) in
  Z.shiftr temp (TSL2561_LUX_LUXSCALE h).

(** The body of tsl2561CalculateLux on the two statics it reads. *)
Definition calculateLux (it : tsl2561IntegrationTime_t) (g : tsl2561Gain_t)
    (ch0 ch1 : Z) : option Z :=
  let chScale := chScale_of it g in
  let channel0 := scale_channel chScale ch0 in
  let channel1 := scale_channel chScale ch1 in
  let ratio := rounded_ratio channel0 channel1 in
  match select_bm package_table ratio with
  | Some (b, m) => Some (lux_of channel0 channel1 b m)
  | None => None
  end.

End WithHeader.

End Lux.

(** ** The bus transaction layer: tsl2561WriteCmd, tsl2561Write8, tsl2561Read16 *)

Module Bus.

(** What the bus engine is handed at one invocation, and how the transfer
    ended. The list of transfers is the observable history of the bus. *)
Record transfer := {
  tx_master : list Z;
  tx_write_length : Z;
  tx_read_length : Z;
  tx_ok : bool
}.

(** The globals of core/i2c that the driver shares with the engine, the file
    scope counter [i], and the state [hw] of the hardware behind the engine. *)
Record i2c (H : Type) := {
  I2CMasterBuffer : list Z;
  I2CSlaveBuffer : list Z;
  I2CWriteLength : Z;
  I2CReadLength : Z;
  i : Z;
  hw : H;
  transfers : list transfer
}.
Arguments I2CMasterBuffer {H}.
Arguments I2CSlaveBuffer {H}.
Arguments I2CWriteLength {H}.
Arguments I2CReadLength {H}.
Arguments i {H}.
Arguments hw {H}.
Arguments transfers {H}.

(** The external collaborators: [i2cEngine] sees the master buffer and the two
    lengths, fills the slave buffer and reports whether the transfer
    completed; [i2cInit] and [systickDelay] only touch the hardware. *)
Record hardware (H : Type) := {
  i2cEngine : list Z -> Z -> Z -> list Z -> H -> bool * list Z * H;
  i2cInit : H -> bool * H;
  systickDelay : Z -> H -> H
}.
Arguments i2cEngine {H}.
Arguments i2cInit {H}.
Arguments systickDelay {H}.

Section WithHardware.
Context (h : tsl2561_h) {H : Type} (ext : hardware H).

(** [for ( i = 0; i < I2C_BUFSIZE; i++ ) I2CMasterBuffer[i] = 0x00;]
    with [n] iterations left. *)
Fixpoint clear_loop (n : nat) (k : nat) (buf : list Z) : nat * list Z :=
  match n with
  | O => (k, buf)
  | S n' => clear_loop n' (S k) (<[k := 0]> buf)
  end.

Definition clear_write_buffers (s : i2c H) : i2c H :=
  let '(k, buf) := clear_loop (Z.to_nat (I2C_BUFSIZE h)) 0 (I2CMasterBuffer s) in
  {| I2CMasterBuffer := buf; I2CSlaveBuffer := I2CSlaveBuffer s;
     I2CWriteLength := I2CWriteLength s; I2CReadLength := I2CReadLength s;
     i := Z.of_nat k; hw := hw s; transfers := transfers s |}.

Definition set_lengths (w r : Z) (s : i2c H) : i2c H :=
  {| I2CMasterBuffer := I2CMasterBuffer s; I2CSlaveBuffer := I2CSlaveBuffer s;
     I2CWriteLength := w; I2CReadLength := r;
     i := i s; hw := hw s; transfers := transfers s |}.

(** [I2CMasterBuffer[k] = v;] on an array of [uint8_t]. A store past the end
    of the list is dropped (in C it is past the end of the array). *)
Definition store_master (k : nat) (v : Z) (s : i2c H) : i2c H :=
  {| I2CMasterBuffer := <[k := u8 v]> (I2CMasterBuffer s);
     I2CSlaveBuffer := I2CSlaveBuffer s;
     I2CWriteLength := I2CWriteLength s; I2CReadLength := I2CReadLength s;
     i := i s; hw := hw s; transfers := transfers s |}.

(** [i2cEngine();] its result is not looked at by any caller in this file. *)
Definition run_engine (s : i2c H) : i2c H :=
  let '(ok, slave, hw') :=
    i2cEngine ext (I2CMasterBuffer s) (I2CWriteLength s) (I2CReadLength s)
      (I2CSlaveBuffer s) (hw s) in
  {| I2CMasterBuffer := I2CMasterBuffer s; I2CSlaveBuffer := slave;
     I2CWriteLength := I2CWriteLength s; I2CReadLength := I2CReadLength s;
     i := i s; hw := hw';
     transfers := transfers s ++
       [ {| tx_master := I2CMasterBuffer s;
            tx_write_length := I2CWriteLength s;
            tx_read_length := I2CReadLength s;
            tx_ok := ok |} ] |}.

Definition tsl2561WriteCmd (cmd : Z) (s : i2c H) : tsl2561Error_t * i2c H :=
  let s := clear_write_buffers s in
  let s := set_lengths 2 0 s in
  let s := store_master 0 (TSL2561_ADDRESS h) s in
  let s := store_master 1 cmd s in
  let s := run_engine s in
  (TSL2561_ERROR_OK, s).

Definition tsl2561Write8 (reg value : Z) (s : i2c H) : tsl2561Error_t * i2c H :=
  let s := clear_write_buffers s in
  let s := set_lengths 3 0 s in
  let s := store_master 0 (TSL2561_ADDRESS h) s in
  let s := store_master 1 reg s in
  let s := store_master 2 (Z.land (u32 value) 0xFF) s in
  let s := run_engine s in
  (TSL2561_ERROR_OK, s).

(** [I2CSlaveBuffer[k]]; the buffer holds [uint8_t]. *)
Definition slave_byte (k : nat) (s : i2c H) : Z :=
  u8 (default 0 (I2CSlaveBuffer s !! k)).

(** The third component is the value stored through [value]. *)
Definition tsl2561Read16 (reg : Z) (s : i2c H) : tsl2561Error_t * Z * i2c H :=
  let s := clear_write_buffers s in
  let s := set_lengths 2 2 s in
  let s := store_master 0 (TSL2561_ADDRESS h) s in
  let s := store_master 1 reg s in
  let s := store_master 2 (Z.lor (TSL2561_ADDRESS h) (TSL2561_READBIT h)) s in
  let s := run_engine s in
  let value := u16 (Z.lor (slave_byte 0 s) (Z.shiftl (slave_byte 1 s) 8)) in
  (TSL2561_ERROR_OK, value, s).

End WithHardware.

End Bus.

(** ** The device state manager and the acquisition sequencer *)

Module Driver.

(** The history of the calls the driver makes below itself, with what each
    returned, and of the returns of tsl2561Enable and tsl2561Disable. *)
Inductive event :=
| Ev_i2cInit (ok : bool)
| Ev_Write8 (reg value : Z) (e : tsl2561Error_t)
| Ev_Read16 (reg : Z) (e : tsl2561Error_t) (stored : option Z)
| Ev_systickDelay (ms : Z)
| Ev_Enable (e : tsl2561Error_t)
| Ev_Disable (e : tsl2561Error_t).

(** What the functions of the driver call: the two register operations of the
    bus layer and the two external primitives, over a bus state [B]. A read
    yields its status and, when it stored one, the value written through its
    pointer argument. *)
Record bus_layer (B : Type) := {
  bus_Write8 : Z -> Z -> B -> tsl2561Error_t * B;
  bus_Read16 : Z -> B -> tsl2561Error_t * option Z * B;
  bus_i2cInit : B -> bool * B;
  bus_systickDelay : Z -> B -> B
}.
Arguments bus_Write8 {B}.
Arguments bus_Read16 {B}.
Arguments bus_i2cInit {B}.
Arguments bus_systickDelay {B}.

(** The three statics of tsl2561.c and the bus they talk to. *)
Record state (B : Type) := {
  _tsl2561Initialised : bool;
  _tsl2561IntegrationTime : tsl2561IntegrationTime_t;
  _tsl2561Gain : tsl2561Gain_t;
  bus : B;
  calls : list event
}.
Arguments _tsl2561Initialised {B}.
Arguments _tsl2561IntegrationTime {B}.
Arguments _tsl2561Gain {B}.
Arguments bus {B}.
Arguments calls {B}.

(** Initial values of the statics. *)
Definition power_on_state {B : Type} (b : B) : state B :=
  {| _tsl2561Initialised := false;
     _tsl2561IntegrationTime := TSL2561_INTEGRATIONTIME_402MS;
     _tsl2561Gain := TSL2561_GAIN_0X;
     bus := b; calls := [] |}.

(** State passing, with [None] when the call depth allowance is used up. *)
Definition M (B A : Type) : Type := state B -> option (A * state B).

Definition ret {B A} (a : A) : M B A := fun s => Some (a, s).

Definition bind {B A A'} (m : M B A) (k : A -> M B A') : M B A' :=
  fun s => match m s with
           | Some (a, s') => k a s'
           | None => None
           end.

Definition out_of_fuel {B A} : M B A := fun _ => None.

Declare Scope drv_scope.
Delimit Scope drv_scope with drv.
Notation "'call' x <- m ; k" := (bind m (fun x => k))
  (at level 10, x name, m at level 100, k at level 200) : drv_scope.
Notation "'run' m ; k" := (bind m (fun _ => k))
  (at level 10, m at level 100, k at level 200) : drv_scope.

Section WithBus.
Context (h : tsl2561_h) {B : Type} (bl : bus_layer B).
Local Open Scope drv_scope.

Definition log (ev : event) : M B unit := fun s =>
  Some (tt, {| _tsl2561Initialised := _tsl2561Initialised s;
               _tsl2561IntegrationTime := _tsl2561IntegrationTime s;
               _tsl2561Gain := _tsl2561Gain s;
               bus := bus s; calls := calls s ++ [ev] |}).

Definition with_bus {A} (f : B -> A * B) : M B A := fun s =>
  let '(a, b) := f (bus s) in
  Some (a, {| _tsl2561Initialised := _tsl2561Initialised s;
              _tsl2561IntegrationTime := _tsl2561IntegrationTime s;
              _tsl2561Gain := _tsl2561Gain s;
              bus := b; calls := calls s |}).

Definition set_Initialised (v : bool) : M B unit := fun s =>
  Some (tt, {| _tsl2561Initialised := v;
               _tsl2561IntegrationTime := _tsl2561IntegrationTime s;
               _tsl2561Gain := _tsl2561Gain s;
               bus := bus s; calls := calls s |}).

Definition set_timing (it : tsl2561IntegrationTime_t) (g : tsl2561Gain_t)
    : M B unit := fun s =>
  Some (tt, {| _tsl2561Initialised := _tsl2561Initialised s;
               _tsl2561IntegrationTime := it;
               _tsl2561Gain := g;
               bus := bus s; calls := calls s |}).

Definition get {A} (f : state B -> A) : M B A := fun s => Some (f s, s).

(** Calls below the driver, each one recorded with its result. An argument
    of type [uint8_t] is converted at the call. *)
Definition i2cInit : M B bool :=
  call ok <- with_bus (bus_i2cInit bl);
  run log (Ev_i2cInit ok);
  ret ok.

Definition tsl2561Write8 (reg value : Z) : M B tsl2561Error_t :=
  call e <- with_bus (bus_Write8 bl (u8 reg) (u32 value));
  run log (Ev_Write8 (u8 reg) (u32 value) e);
  ret e.

Definition tsl2561Read16 (reg : Z) : M B (tsl2561Error_t * option Z) :=
  call r <- with_bus (fun b => let '(e, v, b') := bus_Read16 bl (u8 reg) b in ((e, v), b'));
  run log (Ev_Read16 (u8 reg) (fst r) (snd r));
  ret r.

Definition systickDelay (ms : Z) : M B unit :=
  run with_bus (fun b => (tt, bus_systickDelay bl ms b));
  log (Ev_systickDelay ms).

(** [if (!_tsl2561Initialised) tsl2561Init();] the result of the call is
    dropped. *)
Definition lazy_init (init : M B tsl2561Error_t) : M B unit :=
  call initialised <- get _tsl2561Initialised;
  if negb initialised then (run init; ret tt) else ret tt.

Definition control_reg : Z :=
  Z.lor (TSL2561_COMMAND_BIT h) (TSL2561_REGISTER_CONTROL h).
Definition timing_reg : Z :=
  Z.lor (TSL2561_COMMAND_BIT h) (TSL2561_REGISTER_TIMING h).
Definition chan_reg (r : Z) : Z :=
  Z.lor (Z.lor (TSL2561_COMMAND_BIT h) (TSL2561_WORD_BIT h)) r.
Definition timing_byte (it : tsl2561IntegrationTime_t) (g : tsl2561Gain_t) : Z :=
  Z.lor (integration_value h it) (gain_value h g).

(** tsl2561Init, tsl2561Enable, tsl2561Disable and tsl2561SetTiming call one
    another; [fuel] bounds the depth of the calls. *)
Fixpoint tsl2561Init (fuel : nat) : M B tsl2561Error_t :=
  match fuel with
  | O => out_of_fuel
  | S n =>
      call ok <- i2cInit;
      if negb ok then ret TSL2561_ERROR_I2CINIT else
      run set_Initialised true;
      call it <- get _tsl2561IntegrationTime;
      call g <- get _tsl2561Gain;
      run tsl2561SetTiming n it g;
      ret TSL2561_ERROR_OK
  end
with tsl2561Enable (fuel : nat) : M B tsl2561Error_t :=
  match fuel with
  | O => out_of_fuel
  | S n =>
      run lazy_init (tsl2561Init n);
      call e <- tsl2561Write8 control_reg (TSL2561_CONTROL_POWERON h);
      run log (Ev_Enable e);
      ret e
  end
with tsl2561Disable (fuel : nat) : M B tsl2561Error_t :=
  match fuel with
  | O => out_of_fuel
  | S n =>
      run lazy_init (tsl2561Init n);
      call e <- tsl2561Write8 control_reg (TSL2561_CONTROL_POWEROFF h);
      run log (Ev_Disable e);
      ret e
  end
with tsl2561SetTiming (fuel : nat) (integration : tsl2561IntegrationTime_t)
    (gain : tsl2561Gain_t) : M B tsl2561Error_t :=
  match fuel with
  | O => out_of_fuel
  | S n =>
      run lazy_init (tsl2561Init n);
      call error <- tsl2561Enable n;
      if is_error error then ret error else
      call error <- tsl2561Write8 timing_reg (timing_byte integration gain);
      if is_error error then ret error else
      run set_timing integration gain;
      call error <- tsl2561Disable n;
      if is_error error then ret error else
      ret error
  end.

Definition delay_ms (it : tsl2561IntegrationTime_t) : Z :=
  match it with
  | TSL2561_INTEGRATIONTIME_13MS => 14
  | TSL2561_INTEGRATIONTIME_101MS => 102
  | _ => 400
  end.

(** [*value = ...] as far as the read performed it. *)
Definition stored (v : option Z) (old : Z) : Z := default old v.

(** [broadband] and [ir] are the contents of the two caller-owned cells the
    pointer arguments designate; the result carries their final contents. *)
Definition tsl2561GetLuminosity (fuel : nat) (broadband ir : Z)
    : M B (tsl2561Error_t * Z * Z) :=
  run lazy_init (tsl2561Init fuel);
  call error <- tsl2561Enable fuel;
  if is_error error then ret (error, broadband, ir) else
  call it <- get _tsl2561IntegrationTime;
  run systickDelay (delay_ms it);
  call r <- tsl2561Read16 (chan_reg (TSL2561_REGISTER_CHAN0_LOW h));
  let error := fst r in
  let broadband := stored (snd r) broadband in
  if is_error error then ret (error, broadband, ir) else
  call r <- tsl2561Read16 (chan_reg (TSL2561_REGISTER_CHAN1_LOW h));
  let error := fst r in
  let ir := stored (snd r) ir in
  if is_error error then ret (error, broadband, ir) else
  call error <- tsl2561Disable fuel;
  if is_error error then ret (error, broadband, ir) else
  ret (error, broadband, ir).

(** tsl2561CalculateLux reads the two timing statics and nothing else. *)
Definition tsl2561CalculateLux (ch0 ch1 : Z) (s : state B) : option Z :=
  Lux.calculateLux h (_tsl2561IntegrationTime s) (_tsl2561Gain s)
    (u16 ch0) (u16 ch1).

End WithBus.

(** The driver over the bus layer of this file and a given hardware. *)
Definition real_bus (h : tsl2561_h) {H : Type} (ext : Bus.hardware H)
    : bus_layer (Bus.i2c H) := {|
  bus_Write8 := fun reg value s => Bus.tsl2561Write8 h ext reg value s;
  bus_Read16 := fun reg s =>
    let '(e, v, s') := Bus.tsl2561Read16 h ext reg s in (e, Some v, s');
  bus_i2cInit := fun s =>
    let '(ok, hw') := Bus.i2cInit ext (Bus.hw s) in
    (ok, {| Bus.I2CMasterBuffer := Bus.I2CMasterBuffer s;
            Bus.I2CSlaveBuffer := Bus.I2CSlaveBuffer s;
            Bus.I2CWriteLength := Bus.I2CWriteLength s;
            Bus.I2CReadLength := Bus.I2CReadLength s;
            Bus.i := Bus.i s; Bus.hw := hw';
            Bus.transfers := Bus.transfers s |});
  bus_systickDelay := fun ms s =>
    {| Bus.I2CMasterBuffer := Bus.I2CMasterBuffer s;
       Bus.I2CSlaveBuffer := Bus.I2CSlaveBuffer s;
       Bus.I2CWriteLength := Bus.I2CWriteLength s;
       Bus.I2CReadLength := Bus.I2CReadLength s;
       Bus.i := Bus.i s; Bus.hw := Bus.systickDelay ext ms (Bus.hw s);
       Bus.transfers := Bus.transfers s |}
|}.

End Driver.

(** ** Character output: __putchar and puts of sysinit.c *)

Module SysInit.

(** projectconfig.h is not part of the sources at hand: the three output
    switches that sysinit.c tests with [#ifdef] are fields of the
    configuration. *)
Record projectconfig := {
  CFG_PRINTF_UART : bool;
  CFG_PRINTF_USBCDC : bool;
  CFG_PRINTF_CWDEBUG : bool
}.

(** What the three external senders have been given so far, oldest first,
    and the global [USB_Configuration] (zero while USB is not configured). *)
Record io := {
  uart_sent : list Z;
  usbcdc_sent : list Z;
  debug_printed : list Z;
  USB_Configuration : Z
}.

Definition uartSendByte (c : Z) (w : io) : io :=
  {| uart_sent := uart_sent w ++ [c]; usbcdc_sent := usbcdc_sent w;
     debug_printed := debug_printed w; USB_Configuration := USB_Configuration w |}.

Definition usbcdcSendByte (c : Z) (w : io) : io :=
  {| uart_sent := uart_sent w; usbcdc_sent := usbcdc_sent w ++ [c];
     debug_printed := debug_printed w; USB_Configuration := USB_Configuration w |}.

Definition debug_printf (c : Z) (w : io) : io :=
  {| uart_sent := uart_sent w; usbcdc_sent := usbcdc_sent w;
     debug_printed := debug_printed w ++ [c];
     USB_Configuration := USB_Configuration w |}.

Section WithConfig.
Context (cfg : projectconfig).

Definition __putchar (c : Z) (w : io) : io :=
  let w := if CFG_PRINTF_UART cfg then uartSendByte c w else w in
  let w :=
    if CFG_PRINTF_USBCDC cfg
    then (if negb (USB_Configuration w =? 0) then usbcdcSendByte c w else w)
    else w in
  let w := if CFG_PRINTF_CWDEBUG cfg then debug_printf c w else w in
  w.

(** The loop of puts sends the byte at [str] and advances until that byte is
    zero, then returns 0; [str] lists the bytes of memory from the pointer on. A walk past the end of the list, without a
    zero byte, leaves the modelled memory: [None]. *)
Fixpoint puts (str : list Z) (w : io) : option (Z * io) :=
  match str with
  | [] => None
  | c :: rest => if c =? 0 then Some (0, w) else puts rest (__putchar c w)
  end.

End WithConfig.

End SysInit.

(** * Properties *)

(** ** Machine arithmetic *)

Lemma u32_range (x : Z) : 0 <= u32 x < 2 ^ 32.
Proof. unfold u32. apply Z.mod_pos_bound. lia. Qed.

Lemma u32_small (x : Z) : 0 <= x < 2 ^ 32 -> u32 x = x.
Proof. intros Hx. unfold u32. apply Z.mod_small. exact Hx. Qed.

Lemma u32_le (x : Z) : 0 <= x -> u32 x <= x.
Proof. intros Hx. unfold u32. apply Z.mod_le; lia. Qed.

(** The comparison [temp < 0] on an [unsigned long] never holds. *)
Lemma unsigned_never_negative (x : Z) : (u32 x <? 0) = false.
Proof. apply Z.ltb_ge. apply u32_range. Qed.

Lemma shiftr_nonneg (a n : Z) : 0 <= a -> 0 <= Z.shiftr a n.
Proof. intros Ha. apply Z.shiftr_nonneg. exact Ha. Qed.

Lemma shiftr_mono (a b n : Z) : a <= b -> Z.shiftr a n <= Z.shiftr b n.
Proof.
  intros Hab. destruct (Z.le_gt_cases 0 n) as [Hn | Hn].
  - rewrite !Z.shiftr_div_pow2 by exact Hn.
    apply Z.div_le_mono; [apply Z.pow_pos_nonneg; lia | exact Hab].
  - rewrite <- !Z.shiftl_opp_r. rewrite !Z.shiftl_mul_pow2 by lia.
    apply Z.mul_le_mono_nonneg_r; [apply Z.pow_nonneg; lia | exact Hab].
Qed.

Lemma shiftr_small (a n : Z) : 0 <= a < 2 ^ n -> Z.shiftr a n = 0.
Proof.
  intros Ha. assert (0 <= n).
  { destruct (Z.le_gt_cases 0 n); [assumption|].
    rewrite Z.pow_neg_r in Ha by lia. lia. }
  rewrite Z.shiftr_div_pow2 by assumption. apply Z.div_small. exact Ha.
Qed.

(** ** The lux computation *)

Module LuxFacts.
Import Lux.

Section WithHeader.
Context (h : tsl2561_h).

Lemma scale_channel_nonneg (chScale ch : Z) : 0 <= scale_channel h chScale ch.
Proof. apply shiftr_nonneg. apply u32_range. Qed.

Lemma scale_channel_0 (chScale : Z) : scale_channel h chScale 0 = 0.
Proof. unfold scale_channel. rewrite Z.mul_0_l. apply Z.shiftr_0_l. Qed.

Lemma rounded_ratio_nonneg (channel0 channel1 : Z) :
  0 <= rounded_ratio h channel0 channel1.
Proof. apply shiftr_nonneg. apply u32_range. Qed.

Lemma rounded_ratio_0 (channel1 : Z) : rounded_ratio h 0 channel1 = 0.
Proof. reflexivity. Qed.

Lemma select_bm_0 (t : lux_table) :
  select_bm t 0 = Some (u32 (LUX_B1 t), u32 (LUX_M1 t)).
Proof.
  unfold select_bm.
  replace (0 <=? u32 (LUX_K1 t)) with true; [reflexivity|].
  symmetry. apply Z.leb_le. apply u32_range.
Qed.

(** The clamp of the source is dead code: [lux_of] is the wrapped
    difference, biased and shifted. *)
Lemma lux_of_unclamped (channel0 channel1 b m : Z) :
  lux_of h channel0 channel1 b m =
  Z.shiftr (u32 (u32 (u32 (channel0 * b) - u32 (channel1 * m))
                 + u32 (Z.shiftl 1 (TSL2561_LUX_LUXSCALE h - 1))))
           (TSL2561_LUX_LUXSCALE h).
Proof. unfold lux_of. rewrite unsigned_never_negative. reflexivity. Qed.

Lemma rounding_bias_vanishes :
  1 <= TSL2561_LUX_LUXSCALE h ->
  Z.shiftr (u32 (u32 (Z.shiftl 1 (TSL2561_LUX_LUXSCALE h - 1))))
           (TSL2561_LUX_LUXSCALE h) = 0.
Proof.
  intros HL. apply shiftr_small.
  rewrite Z.shiftl_1_l.
  assert (0 < 2 ^ (TSL2561_LUX_LUXSCALE h - 1)) by (apply Z.pow_pos_nonneg; lia).
  assert (2 ^ (TSL2561_LUX_LUXSCALE h - 1) < 2 ^ TSL2561_LUX_LUXSCALE h)
    by (apply Z.pow_lt_mono_r; lia).
  pose proof (u32_range (u32 (2 ^ (TSL2561_LUX_LUXSCALE h - 1)))).
  pose proof (u32_range (2 ^ (TSL2561_LUX_LUXSCALE h - 1))).
  pose proof (u32_le (u32 (2 ^ (TSL2561_LUX_LUXSCALE h - 1)))).
  pose proof (u32_le (2 ^ (TSL2561_LUX_LUXSCALE h - 1))).
  lia.
Qed.

Lemma calculateLux_0_0 (it : tsl2561IntegrationTime_t) (g : tsl2561Gain_t) :
  1 <= TSL2561_LUX_LUXSCALE h ->
  calculateLux h it g 0 0 = Some 0.
Proof.
  intros HL. unfold calculateLux.
  rewrite !scale_channel_0, rounded_ratio_0, select_bm_0.
  f_equal. unfold lux_of. rewrite !Z.mul_0_l.
  change (u32 0) with 0. change (0 - 0) with 0. change (u32 0) with 0.
  change (0 <? 0) with false. cbv iota. rewrite Z.add_0_l.
  apply rounding_bias_vanishes. exact HL.
Qed.

Lemma select_bm_range (t : lux_table) (ratio b m : Z) :
  select_bm t ratio = Some (b, m) ->
  0 <= b < 2 ^ 32 /\ 0 <= m < 2 ^ 32.
Proof.
  unfold select_bm. intros Hsel.
  repeat match type of Hsel with
         | (if ?c then _ else _) = _ => destruct c
         end;
    try discriminate; injection Hsel as <- <-; split; apply u32_range.
Qed.

End WithHeader.

(** *** Breakpoint selection *)

(** The table as the specification reads it: seven breakpoints with a finite
    threshold, in order, and the catch-all entry that closes the table. *)
Definition finite_breakpoints (t : lux_table) : list (Z * (Z * Z)) :=
  [ (u32 (LUX_K1 t), (u32 (LUX_B1 t), u32 (LUX_M1 t)));
    (u32 (LUX_K2 t), (u32 (LUX_B2 t), u32 (LUX_M2 t)));
    (u32 (LUX_K3 t), (u32 (LUX_B3 t), u32 (LUX_M3 t)));
    (u32 (LUX_K4 t), (u32 (LUX_B4 t), u32 (LUX_M4 t)));
    (u32 (LUX_K5 t), (u32 (LUX_B5 t), u32 (LUX_M5 t)));
    (u32 (LUX_K6 t), (u32 (LUX_B6 t), u32 (LUX_M6 t)));
    (u32 (LUX_K7 t), (u32 (LUX_B7 t), u32 (LUX_M7 t))) ].

Definition catch_all (t : lux_table) : Z * Z :=
  (u32 (LUX_B8 t), u32 (LUX_M8 t)).

(** The coefficients of the first breakpoint whose threshold is at least the
    ratio, the catch-all entry when there is none. *)
Definition first_breakpoint (t : lux_table) (ratio : Z) : Z * Z :=
  match List.find (fun e => ratio <=? fst e) (finite_breakpoints t) with
  | Some e => snd e
  | None => catch_all t
  end.

Lemma find_first_at {A : Type} (p : A -> bool) (pre : list A) (e : A) (post : list A) :
  List.Forall (fun x => p x = false) pre -> p e = true ->
  List.find p (pre ++ e :: post) = Some e.
Proof.
  induction 1 as [| x pre Hx _ IH]; intros He; simpl.
  - rewrite He. reflexivity.
  - rewrite Hx. apply IH. exact He.
Qed.

Lemma find_none_all {A : Type} (p : A -> bool) (l : list A) :
  List.Forall (fun x => p x = false) l -> List.find p l = None.
Proof.
  induction 1 as [| x l Hx _ IH]; simpl; [reflexivity|].
  rewrite Hx. exact IH.
Qed.

Lemma select_bm_is_first (t : lux_table) (ratio : Z) :
  0 <= ratio -> u32 (LUX_K8 t) <= u32 (LUX_K7 t) ->
  select_bm t ratio = Some (first_breakpoint t ratio).
Proof.
  intros Hr H87. unfold select_bm, first_breakpoint, finite_breakpoints, catch_all.
  replace (0 <=? ratio) with true by (symmetry; apply Z.leb_le; exact Hr).
  cbn [andb List.find fst snd].
  repeat match goal with
         | |- context [ratio <=? ?k] =>
             destruct (Z.leb_spec ratio k); cbn [List.find fst snd]; try reflexivity
         end.
  replace (u32 (LUX_K8 t) <? ratio) with true; [reflexivity|].
  symmetry. apply Z.ltb_lt. lia.
Qed.

(** C5. For every rounded ratio the chain of comparisons assigns the
    coefficients of the first breakpoint whose threshold is at least the
    ratio: a ratio equal to a threshold, and above the thresholds before it,
    gets that breakpoint and not the next one; a ratio above every finite
    threshold gets the catch-all entry; so [b] and [m] are assigned for every
    ratio. The table is as the data model has it: the threshold of the
    catch-all entry does not exceed the last finite threshold. *)
Theorem select_bm_first_breakpoint (t : lux_table) (ratio : Z) :
  0 <= ratio ->
  u32 (LUX_K8 t) <= u32 (LUX_K7 t) ->
  select_bm t ratio = Some (first_breakpoint t ratio) /\
  (forall pre e post,
      finite_breakpoints t = pre ++ e :: post ->
      List.Forall (fun e' => fst e' < ratio) pre ->
      ratio = fst e ->
      select_bm t ratio = Some (snd e)) /\
  (List.Forall (fun e' => fst e' < ratio) (finite_breakpoints t) ->
   select_bm t ratio = Some (catch_all t)).
Proof.
  intros Hr H87. split; [|split].
  - apply select_bm_is_first; assumption.
  - intros pre e post Htab Hpre He.
    rewrite select_bm_is_first by assumption. f_equal.
    unfold first_breakpoint. rewrite Htab.
    rewrite (find_first_at _ pre e post); [reflexivity | | apply Z.leb_le; lia].
    eapply List.Forall_impl; [|exact Hpre].
    intros a Ha. apply Z.leb_gt. exact Ha.
  - intros Hall.
    rewrite select_bm_is_first by assumption. f_equal.
    unfold first_breakpoint. rewrite find_none_all; [reflexivity|].
    eapply List.Forall_impl; [|exact Hall].
    intros a Ha. apply Z.leb_gt. exact Ha.
Qed.

(** Hence [b] and [m] are assigned in every call of tsl2561CalculateLux. *)
Lemma calculateLux_selects (h : tsl2561_h) (it : tsl2561IntegrationTime_t)
    (g : tsl2561Gain_t) (ch0 ch1 : Z) :
  u32 (LUX_K8 (package_table h)) <= u32 (LUX_K7 (package_table h)) ->
  calculateLux h it g ch0 ch1 =
  Some (lux_of h
          (scale_channel h (chScale_of h it g) ch0)
          (scale_channel h (chScale_of h it g) ch1)
          (fst (first_breakpoint (package_table h)
                  (rounded_ratio h (scale_channel h (chScale_of h it g) ch0)
                                   (scale_channel h (chScale_of h it g) ch1))))
          (snd (first_breakpoint (package_table h)
                  (rounded_ratio h (scale_channel h (chScale_of h it g) ch0)
                                   (scale_channel h (chScale_of h it g) ch1))))).
Proof.
  intros H87. unfold calculateLux.
  rewrite select_bm_is_first by (apply rounded_ratio_nonneg || exact H87).
  destruct (first_breakpoint _ _) as [b m]. reflexivity.
Qed.

Lemma select_bm_first_breakpoint_witness :
  0 <= 0x40 /\
  u32 (LUX_K8 datasheet_T) <= u32 (LUX_K7 datasheet_T) /\
  select_bm datasheet_T 0x40 = Some (first_breakpoint datasheet_T 0x40).
Proof.
  split; [lia|]. split; [vm_compute; discriminate|].
  apply (select_bm_first_breakpoint datasheet_T 0x40); [lia | vm_compute; discriminate].
Defined.

(** *** Wrap-around and monotonicity *)

(** Names for the intermediate values of tsl2561CalculateLux. *)
Definition channel (h : tsl2561_h) (it : tsl2561IntegrationTime_t)
    (g : tsl2561Gain_t) (ch : Z) : Z :=
  scale_channel h (chScale_of h it g) ch.

Definition ratio_of (h : tsl2561_h) (it : tsl2561IntegrationTime_t)
    (g : tsl2561Gain_t) (ch0 ch1 : Z) : Z :=
  rounded_ratio h (channel h it g ch0) (channel h it g ch1).

Definition rounding_bias (h : tsl2561_h) : Z :=
  u32 (Z.shiftl 1 (TSL2561_LUX_LUXSCALE h - 1)).

Definition timing_state (it : tsl2561IntegrationTime_t) (g : tsl2561Gain_t)
    : Driver.state unit :=
  {| Driver._tsl2561Initialised := true;
     Driver._tsl2561IntegrationTime := it;
     Driver._tsl2561Gain := g;
     Driver.bus := tt; Driver.calls := [] |}.

Lemma u16_small (x : Z) : 0 <= x < 65536 -> u16 x = x.
Proof. intros Hx. unfold u16. apply Z.mod_small. exact Hx. Qed.

Lemma calculateLux_exact (h : tsl2561_h) (it : tsl2561IntegrationTime_t)
    (g : tsl2561Gain_t) (ch0 ch1 b m : Z) :
  0 <= ch0 -> 0 <= ch1 ->
  select_bm (package_table h) (ratio_of h it g ch0 ch1) = Some (b, m) ->
  channel h it g ch0 * b < 2 ^ 32 ->
  channel h it g ch1 * m <= channel h it g ch0 * b ->
  channel h it g ch0 * b - channel h it g ch1 * m + rounding_bias h < 2 ^ 32 ->
  calculateLux h it g ch0 ch1 =
  Some (Z.shiftr (channel h it g ch0 * b - channel h it g ch1 * m + rounding_bias h)
                 (TSL2561_LUX_LUXSCALE h)).
Proof.
  intros H0 H1 Hsel Hb Hpos Hsum.
  unfold calculateLux. fold (channel h it g ch0) (channel h it g ch1).
  fold (ratio_of h it g ch0 ch1). rewrite Hsel. f_equal.
  rewrite lux_of_unclamped. fold (rounding_bias h).
  destruct (select_bm_range _ _ _ _ Hsel) as [Hbr Hmr].
  pose proof (scale_channel_nonneg h (chScale_of h it g) ch0) as Hc0.
  pose proof (scale_channel_nonneg h (chScale_of h it g) ch1) as Hc1.
  fold (channel h it g ch0) in Hc0. fold (channel h it g ch1) in Hc1.
  assert (0 <= channel h it g ch1 * m) by (apply Z.mul_nonneg_nonneg; lia).
  assert (0 <= rounding_bias h) by apply u32_range.
  rewrite (u32_small (channel h it g ch0 * b)) by lia.
  rewrite (u32_small (channel h it g ch1 * m)) by lia.
  rewrite (u32_small (channel h it g ch0 * b - channel h it g ch1 * m)) by lia.
  rewrite u32_small by lia. reflexivity.
Qed.

Lemma channel_mono (h : tsl2561_h) (it : tsl2561IntegrationTime_t)
    (g : tsl2561Gain_t) (ch0 ch0' : Z) :
  0 <= ch0 <= ch0' ->
  ch0' * chScale_of h it g < 2 ^ 32 ->
  channel h it g ch0 <= channel h it g ch0'.
Proof.
  intros Hch Hfit. unfold channel, scale_channel.
  assert (0 <= chScale_of h it g).
  { unfold chScale_of. destruct (gain_value h g =? 0); [apply u32_range|].
    destruct it; apply u32_range. }
  apply shiftr_mono.
  assert (ch0 * chScale_of h it g <= ch0' * chScale_of h it g)
    by (apply Z.mul_le_mono_nonneg_r; lia).
  assert (0 <= ch0 * chScale_of h it g) by (apply Z.mul_nonneg_nonneg; lia).
  rewrite !u32_small by lia. assumption.
Qed.

(** C1. The clamp does not happen. With the data sheet's header, at 402 ms and
    gain 1x: for the T package a zero broadband count gives a lux that is the
    wrapped negative difference, and it changes with the infrared count; for
    the CS package the counts 1000 and 1300, whose ratio selects the seventh
    breakpoint, have a negative raw lux and yield 262143 instead of 0. *)
Theorem tsl2561CalculateLux_negative_wraps :
  Driver.tsl2561CalculateLux (datasheet_h false) 0 500
    (timing_state TSL2561_INTEGRATIONTIME_402MS TSL2561_GAIN_0X) = Some 261926 /\
  Driver.tsl2561CalculateLux (datasheet_h false) 0 2
    (timing_state TSL2561_INTEGRATIONTIME_402MS TSL2561_GAIN_0X) = Some 262143 /\
  Driver.tsl2561CalculateLux (datasheet_h false) 0 0
    (timing_state TSL2561_INTEGRATIONTIME_402MS TSL2561_GAIN_0X) = Some 0 /\
  ratio_of (datasheet_h true) TSL2561_INTEGRATIONTIME_402MS TSL2561_GAIN_0X
    1000 1300 = LUX_K7 datasheet_CS /\
  channel (datasheet_h true) TSL2561_INTEGRATIONTIME_402MS TSL2561_GAIN_0X 1000
    * LUX_B7 datasheet_CS
  - channel (datasheet_h true) TSL2561_INTEGRATIONTIME_402MS TSL2561_GAIN_0X 1300
    * LUX_M7 datasheet_CS = -14400 /\
  Driver.tsl2561CalculateLux (datasheet_h true) 1000 1300
    (timing_state TSL2561_INTEGRATIONTIME_402MS TSL2561_GAIN_0X) = Some 262143.
Proof. repeat split; vm_compute; reflexivity. Qed.

(** C6. With both channels at zero the computed lux is exactly 0, whatever the
    integration time and the gain held by the driver: the ratio is taken as 0
    without dividing, the raw lux is 0 and the rounding bias is shifted out
    (the lux scale is at least one bit). *)
Theorem tsl2561CalculateLux_zero_zero (h : tsl2561_h) {B : Type}
    (s : Driver.state B) :
  1 <= TSL2561_LUX_LUXSCALE h ->
  Driver.tsl2561CalculateLux h 0 0 s = Some 0.
Proof.
  intros HL. unfold Driver.tsl2561CalculateLux.
  change (u16 0) with 0. apply calculateLux_0_0. exact HL.
Qed.

Lemma tsl2561CalculateLux_zero_zero_witness :
  1 <= TSL2561_LUX_LUXSCALE (datasheet_h true) /\
  Driver.tsl2561CalculateLux (datasheet_h true) 0 0
    (timing_state TSL2561_INTEGRATIONTIME_13MS TSL2561_GAIN_16X) = Some 0.
Proof.
  split; [simpl; lia|].
  apply (tsl2561CalculateLux_zero_zero (datasheet_h true)). simpl; lia.
Defined.

(** C7, as stated, fails twice with the data sheet's header. At 13 ms and
    gain 1x the product [ch0 * chScale] wraps between the counts 8955 and
    8956; at 402 ms and gain 1x a zero broadband count yields the wrapped
    negative difference. Both pairs select the first breakpoint. *)
Lemma lux_not_monotone_in_segment :
  (ratio_of (datasheet_h false) TSL2561_INTEGRATIONTIME_13MS TSL2561_GAIN_0X 8955 0 = 0 /\
   ratio_of (datasheet_h false) TSL2561_INTEGRATIONTIME_13MS TSL2561_GAIN_0X 8956 0 = 0 /\
   Driver.tsl2561CalculateLux (datasheet_h false) 8955 0
     (timing_state TSL2561_INTEGRATIONTIME_13MS TSL2561_GAIN_0X) = Some 127484 /\
   Driver.tsl2561CalculateLux (datasheet_h false) 8956 0
     (timing_state TSL2561_INTEGRATIONTIME_13MS TSL2561_GAIN_0X) = Some 10) /\
  (ratio_of (datasheet_h false) TSL2561_INTEGRATIONTIME_402MS TSL2561_GAIN_0X 0 500 = 0 /\
   ratio_of (datasheet_h false) TSL2561_INTEGRATIONTIME_402MS TSL2561_GAIN_0X 5000 500 = 51 /\
   select_bm datasheet_T 0 = select_bm datasheet_T 51 /\
   Driver.tsl2561CalculateLux (datasheet_h false) 0 500
     (timing_state TSL2561_INTEGRATIONTIME_402MS TSL2561_GAIN_0X) = Some 261926 /\
   Driver.tsl2561CalculateLux (datasheet_h false) 5000 500
     (timing_state TSL2561_INTEGRATIONTIME_402MS TSL2561_GAIN_0X) = Some 2214).
Proof. repeat split; vm_compute; reflexivity. Qed.

(** C7, amended. With the infrared count and the timing fixed, two broadband
    counts [ch0 <= ch0'] that select the same coefficients give
    [lux ch0 <= lux ch0'], provided the 32-bit computation does not wrap for
    the larger count and the raw lux of the smaller one is not negative. *)
Theorem tsl2561CalculateLux_monotone (h : tsl2561_h) {B : Type}
    (s : Driver.state B) (it : tsl2561IntegrationTime_t) (g : tsl2561Gain_t)
    (ch1 ch0 ch0' b m : Z) :
  Driver._tsl2561IntegrationTime s = it ->
  Driver._tsl2561Gain s = g ->
  0 <= ch0 <= ch0' -> ch0' < 65536 -> 0 <= ch1 < 65536 ->
  select_bm (package_table h) (ratio_of h it g ch0 ch1) = Some (b, m) ->
  select_bm (package_table h) (ratio_of h it g ch0' ch1) = Some (b, m) ->
  ch0' * chScale_of h it g < 2 ^ 32 ->
  channel h it g ch0' * b < 2 ^ 32 ->
  channel h it g ch0' * b - channel h it g ch1 * m + rounding_bias h < 2 ^ 32 ->
  channel h it g ch1 * m <= channel h it g ch0 * b ->
  exists l l',
    Driver.tsl2561CalculateLux h ch0 ch1 s = Some l /\
    Driver.tsl2561CalculateLux h ch0' ch1 s = Some l' /\
    l <= l'.
Proof.
  intros Hit Hg Hch Hch' Hch1 Hsel Hsel' Hfit Hb Hsum Hpos.
  pose proof (channel_mono h it g ch0 ch0' Hch Hfit) as Hmono.
  destruct (select_bm_range _ _ _ _ Hsel) as [Hbr Hmr].
  assert (channel h it g ch0 * b <= channel h it g ch0' * b)
    by (apply Z.mul_le_mono_nonneg_r; lia).
  unfold Driver.tsl2561CalculateLux. rewrite Hit, Hg.
  rewrite !u16_small by lia.
  rewrite (calculateLux_exact h it g ch0 ch1 b m) by (assumption || lia).
  rewrite (calculateLux_exact h it g ch0' ch1 b m) by (assumption || lia).
  eexists _, _. split; [reflexivity|]. split; [reflexivity|].
  apply shiftr_mono. lia.
Qed.

Lemma tsl2561CalculateLux_monotone_witness :
  exists l l',
    Driver.tsl2561CalculateLux (datasheet_h false) 4500 500
      (timing_state TSL2561_INTEGRATIONTIME_402MS TSL2561_GAIN_0X) = Some l /\
    Driver.tsl2561CalculateLux (datasheet_h false) 5000 500
      (timing_state TSL2561_INTEGRATIONTIME_402MS TSL2561_GAIN_0X) = Some l' /\
    l <= l'.
Proof.
  apply (tsl2561CalculateLux_monotone (datasheet_h false)
           (timing_state TSL2561_INTEGRATIONTIME_402MS TSL2561_GAIN_0X)
           TSL2561_INTEGRATIONTIME_402MS TSL2561_GAIN_0X
           500 4500 5000 0x01f2 0x01be);
    try lia; vm_compute; try reflexivity; discriminate.
Defined.

End LuxFacts.

(** ** The bus transaction layer *)

Module BusFacts.
Import Bus.

(** An engine whose every transfer fails, and idle globals. *)
Definition failing_hardware : hardware unit := {|
  i2cEngine := fun _ _ _ slave hw => (false, slave, hw);
  i2cInit := fun hw => (false, hw);
  systickDelay := fun _ hw => hw
|}.

Definition idle_i2c : i2c unit := {|
  I2CMasterBuffer := [0; 0; 0; 0; 0; 0];
  I2CSlaveBuffer := [0xAB; 0xCD; 0; 0; 0; 0];
  I2CWriteLength := 0; I2CReadLength := 0;
  i := 0; hw := tt; transfers := []
|}.

Section WithHardware.
Context (h : tsl2561_h) {H : Type} (ext : hardware H).

Lemma transfers_clear_write_buffers (s : i2c H) :
  transfers (clear_write_buffers h s) = transfers s.
Proof.
  unfold clear_write_buffers.
  destruct (clear_loop _ _ _) as [k buf]. reflexivity.
Qed.

Lemma run_engine_transfers (s : i2c H) :
  exists ok,
    transfers (run_engine ext s) =
    transfers s ++ [ {| tx_master := I2CMasterBuffer s;
                        tx_write_length := I2CWriteLength s;
                        tx_read_length := I2CReadLength s;
                        tx_ok := ok |} ].
Proof.
  unfold run_engine.
  destruct (i2cEngine ext _ _ _ _ _) as [[ok slave] hw']. exists ok. reflexivity.
Qed.

(** C3, amended. Each of the three bus operations hands the transfer to the
    engine exactly once, so there is no retry, and returns TSL2561_ERROR_OK
    whatever the outcome of the transfer. *)
Theorem bus_operations_always_ok (cmd reg value : Z) (s : i2c H) :
  (fst (tsl2561WriteCmd h ext cmd s) = TSL2561_ERROR_OK /\
   exists t, transfers (snd (tsl2561WriteCmd h ext cmd s)) = transfers s ++ [t]) /\
  (fst (tsl2561Write8 h ext reg value s) = TSL2561_ERROR_OK /\
   exists t, transfers (snd (tsl2561Write8 h ext reg value s)) = transfers s ++ [t]) /\
  (fst (fst (tsl2561Read16 h ext reg s)) = TSL2561_ERROR_OK /\
   exists t, transfers (snd (tsl2561Read16 h ext reg s)) = transfers s ++ [t]).
Proof.
  unfold tsl2561WriteCmd, tsl2561Write8, tsl2561Read16. cbn [fst snd].
  repeat split;
    match goal with
    | |- exists t, transfers (run_engine ext ?s') = _ =>
        destruct (run_engine_transfers s') as [ok ->];
        eexists; f_equal; cbn [transfers store_master set_lengths];
        apply transfers_clear_write_buffers
    end.
Qed.

(** With the bus layer of this file no step of the driver reports an error. *)
Lemma tsl2561Write8_ok (reg value : Z) (s : i2c H) :
  fst (tsl2561Write8 h ext reg value s) = TSL2561_ERROR_OK.
Proof. reflexivity. Qed.

Lemma tsl2561Read16_ok (reg : Z) (s : i2c H) :
  fst (fst (tsl2561Read16 h ext reg s)) = TSL2561_ERROR_OK.
Proof. reflexivity. Qed.

Lemma low_byte (value : Z) : u8 (Z.land (u32 value) 0xFF) = value mod 256.
Proof.
  change 0xFF with (Z.ones 8). rewrite Z.land_ones by lia.
  unfold u8, u32. rewrite Z.mod_mod by lia.
  apply Z.mod_mod_divide. exists (2 ^ 24). reflexivity.
Qed.

(** C10. tsl2561Write8 takes a 32-bit value and transmits its low byte only:
    the transfer it hands to the engine has the lengths 3 and 0 and a master
    buffer whose third byte is [value mod 256], and two values that are
    congruent modulo 256 give the same transfer and the same result. *)
Theorem tsl2561Write8_low_byte (reg value value' : Z) (s : i2c H) :
  value mod 256 = value' mod 256 ->
  tsl2561Write8 h ext reg value s = tsl2561Write8 h ext reg value' s /\
  exists ok,
    transfers (snd (tsl2561Write8 h ext reg value s)) =
    transfers s ++
    [ {| tx_master :=
           <[2%nat := value mod 256]>
             (<[1%nat := u8 reg]>
                (<[0%nat := u8 (TSL2561_ADDRESS h)]>
                   (I2CMasterBuffer (clear_write_buffers h s))));
         tx_write_length := 3;
         tx_read_length := 0;
         tx_ok := ok |} ].
Proof.
  intros Hcong. unfold tsl2561Write8. cbn [snd]. split.
  - unfold store_master at 1 4. rewrite !low_byte, Hcong. reflexivity.
  - match goal with
    | |- exists ok, transfers (run_engine ext ?s') = _ =>
        destruct (run_engine_transfers s') as [ok ->]; exists ok
    end.
    cbn [transfers store_master set_lengths I2CMasterBuffer I2CWriteLength
         I2CReadLength].
    rewrite low_byte, transfers_clear_write_buffers. reflexivity.
Qed.

End WithHardware.

(** C3, as stated, fails: on an engine whose transfers fail, each of the three
    operations still returns TSL2561_ERROR_OK. *)
Lemma failed_transfer_returns_ok :
  (fst (tsl2561WriteCmd (datasheet_h false) failing_hardware 0x80 idle_i2c)
     = TSL2561_ERROR_OK /\
   map tx_ok (transfers (snd (tsl2561WriteCmd (datasheet_h false) failing_hardware
                                0x80 idle_i2c))) = [false]) /\
  (fst (tsl2561Write8 (datasheet_h false) failing_hardware 0x80 0x03 idle_i2c)
     = TSL2561_ERROR_OK /\
   map tx_ok (transfers (snd (tsl2561Write8 (datasheet_h false) failing_hardware
                                0x80 0x03 idle_i2c))) = [false]) /\
  (fst (fst (tsl2561Read16 (datasheet_h false) failing_hardware 0xAC idle_i2c))
     = TSL2561_ERROR_OK /\
   map tx_ok (transfers (snd (tsl2561Read16 (datasheet_h false) failing_hardware
                                0xAC idle_i2c))) = [false]).
Proof. repeat split. Qed.

Lemma tsl2561Write8_low_byte_witness :
  tsl2561Write8 (datasheet_h false) failing_hardware 0x81 0x112 idle_i2c =
  tsl2561Write8 (datasheet_h false) failing_hardware 0x81 0x12 idle_i2c.
Proof.
  apply (tsl2561Write8_low_byte (datasheet_h false) failing_hardware
           0x81 0x112 0x12 idle_i2c).
  reflexivity.
Defined.

End BusFacts.

(** ** The device state manager and the acquisition sequencer *)

Module DriverFacts.
Import Driver.

Arguments u8 : simpl never.
Arguments u16 : simpl never.
Arguments u32 : simpl never.
Arguments control_reg : simpl never.
Arguments timing_reg : simpl never.
Arguments chan_reg : simpl never.
Arguments timing_byte : simpl never.

Section WithBus.
Context (h : tsl2561_h) {B : Type} (bl : bus_layer B).

Definition timing (s : state B) : tsl2561IntegrationTime_t * tsl2561Gain_t :=
  (_tsl2561IntegrationTime s, _tsl2561Gain s).

(** The events of one call of tsl2561Enable, of one call of tsl2561Disable,
    of the write to the timing register and of the two channel reads, each
    with its result. *)
Definition enable_events (e : tsl2561Error_t) : list event :=
  [Ev_Write8 (u8 (control_reg h)) (u32 (TSL2561_CONTROL_POWERON h)) e; Ev_Enable e].

Definition disable_events (e : tsl2561Error_t) : list event :=
  [Ev_Write8 (u8 (control_reg h)) (u32 (TSL2561_CONTROL_POWEROFF h)) e; Ev_Disable e].

Definition timing_write (it : tsl2561IntegrationTime_t) (g : tsl2561Gain_t)
    (e : tsl2561Error_t) : event :=
  Ev_Write8 (u8 (timing_reg h)) (u32 (timing_byte h it g)) e.

Definition chan0_read (e : tsl2561Error_t) (v : option Z) : event :=
  Ev_Read16 (u8 (chan_reg h (TSL2561_REGISTER_CHAN0_LOW h))) e v.

Definition chan1_read (e : tsl2561Error_t) (v : option Z) : event :=
  Ev_Read16 (u8 (chan_reg h (TSL2561_REGISTER_CHAN1_LOW h))) e v.


(** Bus initialisation fails at every attempt. *)
Definition init_fails : Prop := forall b, fst (bus_i2cInit bl b) = false.

(** What [k] lazy initialisations in a row log: nothing on an initialised
    driver; [k] failed attempts when the bus cannot be brought up. *)
Definition attempts (k : nat) (s : state B) (pre : list event) : Prop :=
  (_tsl2561Initialised s = true -> pre = []) /\
  (init_fails -> _tsl2561Initialised s = false ->
   pre = repeat (Ev_i2cInit false) k).

(** The flag stays set once set, and stays clear while the bus cannot be
    brought up. *)
Definition keeps_flag (s s' : state B) : Prop :=
  (_tsl2561Initialised s = true -> _tsl2561Initialised s' = true) /\
  (init_fails -> _tsl2561Initialised s = false -> _tsl2561Initialised s' = false).

(** The three ways a call of tsl2561SetTiming ends: [d] is what it adds to
    the history, [t] and [t'] are the timing statics before and after,
    [pre] and [mid] are the events of lazy initialisations. *)
Definition SetTiming_outcome (it : tsl2561IntegrationTime_t) (g : tsl2561Gain_t)
    (t t' : tsl2561IntegrationTime_t * tsl2561Gain_t)
    (e : tsl2561Error_t) (pre mid d : list event) : Prop :=
  (is_error e = true /\
   d = pre ++ enable_events e /\
   t' = t) \/
  (is_error e = true /\
   d = pre ++ enable_events TSL2561_ERROR_OK ++ [timing_write it g e] /\
   t' = t) \/
  (d = pre ++ enable_events TSL2561_ERROR_OK
         ++ [timing_write it g TSL2561_ERROR_OK] ++ mid ++ disable_events e /\
   t' = (it, g)).

(** The four ways a call of tsl2561GetLuminosity ends: [bb], [ir] are the
    contents of the two cells before the call and [bb'], [ir'] after it,
    [ms] is the delay. *)
Definition GetLuminosity_outcome (ms bb ir bb' ir' : Z)
    (e : tsl2561Error_t) (pre mid d : list event) : Prop :=
  (is_error e = true /\
   d = pre ++ enable_events e /\
   bb' = bb /\ ir' = ir) \/
  (exists v0,
      is_error e = true /\
      d = pre ++ enable_events TSL2561_ERROR_OK
            ++ [Ev_systickDelay ms; chan0_read e v0] /\
      bb' = stored v0 bb /\ ir' = ir) \/
  (exists v0 v1,
      is_error e = true /\
      d = pre ++ enable_events TSL2561_ERROR_OK
            ++ [Ev_systickDelay ms; chan0_read TSL2561_ERROR_OK v0; chan1_read e v1] /\
      bb' = stored v0 bb /\ ir' = stored v1 ir) \/
  (exists v0 v1,
      d = pre ++ enable_events TSL2561_ERROR_OK
            ++ [Ev_systickDelay ms; chan0_read TSL2561_ERROR_OK v0;
                chan1_read TSL2561_ERROR_OK v1]
            ++ mid ++ disable_events e /\
      bb' = stored v0 bb /\ ir' = stored v1 ir).

(** *** The calls below the driver *)

(** The state [s] with another bus and more events. *)
Definition after (s : state B) (b : B) (evs : list event) : state B :=
  {| _tsl2561Initialised := _tsl2561Initialised s;
     _tsl2561IntegrationTime := _tsl2561IntegrationTime s;
     _tsl2561Gain := _tsl2561Gain s;
     bus := b; calls := calls s ++ evs |}.

Lemma Write8_spec (reg value : Z) (s : state B) :
  exists e b,
    tsl2561Write8 bl reg value s =
    Some (e, after s b [Ev_Write8 (u8 reg) (u32 value) e]).
Proof.
  unfold tsl2561Write8, bind, with_bus.
  destruct (bus_Write8 bl _ _ _) as [e b]. exists e, b. reflexivity.
Qed.

Lemma i2cInit_spec (s : state B) :
  exists b,
    i2cInit bl s =
    Some (fst (bus_i2cInit bl (bus s)),
          after s b [Ev_i2cInit (fst (bus_i2cInit bl (bus s)))]).
Proof.
  unfold i2cInit, bind, with_bus.
  destruct (bus_i2cInit bl _) as [ok b]. exists b. reflexivity.
Qed.

Lemma Read16_spec (reg : Z) (s : state B) :
  exists e v b,
    tsl2561Read16 bl reg s =
    Some ((e, v), after s b [Ev_Read16 (u8 reg) e v]).
Proof.
  unfold tsl2561Read16, bind, with_bus.
  destruct (bus_Read16 bl _ _) as [[e v] b]. exists e, v, b. reflexivity.
Qed.

Lemma systickDelay_spec (ms : Z) (s : state B) :
  exists b, systickDelay bl ms s = Some (tt, after s b [Ev_systickDelay ms]).
Proof.
  unfold systickDelay, bind, with_bus. eexists. reflexivity.
Qed.

Lemma lazy_init_set (init : M B tsl2561Error_t) (s : state B) :
  _tsl2561Initialised s = true -> lazy_init init s = Some (tt, s).
Proof. intros Hini. unfold lazy_init, bind, get. rewrite Hini. reflexivity. Qed.

Lemma lazy_init_clear (init : M B tsl2561Error_t) (s s' : state B)
    (e : tsl2561Error_t) :
  _tsl2561Initialised s = false -> init s = Some (e, s') ->
  lazy_init init s = Some (tt, s').
Proof.
  intros Hini Hrun. unfold lazy_init, bind, get. rewrite Hini.
  cbn [negb]. rewrite Hrun. reflexivity.
Qed.

Lemma bind_Some {A A' : Type} (m : M B A) (k : A -> M B A') (s s' : state B) (a : A) :
  m s = Some (a, s') -> bind m k s = k a s'.
Proof. intros Hm. unfold bind. rewrite Hm. reflexivity. Qed.

(** *** One level of each function *)

Lemma tsl2561Init_eq (n : nat) :
  tsl2561Init h bl (S n) =
  (call ok <- i2cInit bl;
   if negb ok then ret TSL2561_ERROR_I2CINIT else
   run set_Initialised true;
   call it <- get _tsl2561IntegrationTime;
   call g <- get _tsl2561Gain;
   run tsl2561SetTiming h bl n it g;
   ret TSL2561_ERROR_OK)%drv.
Proof. reflexivity. Qed.

Lemma tsl2561Enable_eq (n : nat) :
  tsl2561Enable h bl (S n) =
  (run lazy_init (tsl2561Init h bl n);
   call e <- tsl2561Write8 bl (control_reg h) (TSL2561_CONTROL_POWERON h);
   run log (Ev_Enable e);
   ret e)%drv.
Proof. reflexivity. Qed.

Lemma tsl2561Disable_eq (n : nat) :
  tsl2561Disable h bl (S n) =
  (run lazy_init (tsl2561Init h bl n);
   call e <- tsl2561Write8 bl (control_reg h) (TSL2561_CONTROL_POWEROFF h);
   run log (Ev_Disable e);
   ret e)%drv.
Proof. reflexivity. Qed.

Lemma tsl2561SetTiming_eq (n : nat) (integration : tsl2561IntegrationTime_t)
    (gain : tsl2561Gain_t) :
  tsl2561SetTiming h bl (S n) integration gain =
  (run lazy_init (tsl2561Init h bl n);
   call error <- tsl2561Enable h bl n;
   if is_error error then ret error else
   call error <- tsl2561Write8 bl (timing_reg h) (timing_byte h integration gain);
   if is_error error then ret error else
   run set_timing integration gain;
   call error <- tsl2561Disable h bl n;
   if is_error error then ret error else
   ret error)%drv.
Proof. reflexivity. Qed.

(** *** On an initialised driver *)

Ltac into E := rewrite (bind_Some _ _ _ _ _ E); cbv beta.

Ltac skip_lazy H :=
  rewrite (bind_Some _ _ _ _ _ (lazy_init_set _ _ H)); cbv beta.

Ltac prim :=
  match goal with
  | |- context [bind (tsl2561Write8 _ ?r ?v) _ ?s] =>
      let e := fresh "e" in
      let b := fresh "b" in
      let E := fresh "E" in
      destruct (Write8_spec r v s) as (e & b & E); into E; clear E
  | |- context [bind (tsl2561Read16 _ ?r) _ ?s] =>
      let e := fresh "e" in
      let v := fresh "v" in
      let b := fresh "b" in
      let E := fresh "E" in
      destruct (Read16_spec r s) as (e & v & b & E); into E; clear E
  | |- context [bind (systickDelay _ ?ms) _ ?s] =>
      let b := fresh "b" in
      let E := fresh "E" in
      destruct (systickDelay_spec ms s) as (b & E); into E; clear E
  end.

Ltac pure_step :=
  unfold bind at 1; cbn [get ret log set_timing set_Initialised]; cbv beta.

Lemma Enable_initialised (n : nat) (s : state B) :
  _tsl2561Initialised s = true ->
  exists e b,
    tsl2561Enable h bl (S n) s = Some (e, after s b (enable_events e)).
Proof.
  intros Hini. rewrite tsl2561Enable_eq.
  skip_lazy Hini.
  prim. pure_step. exists e, b. unfold after. cbn.
  rewrite <- app_assoc. reflexivity.
Qed.

Lemma Disable_initialised (n : nat) (s : state B) :
  _tsl2561Initialised s = true ->
  exists e b,
    tsl2561Disable h bl (S n) s = Some (e, after s b (disable_events e)).
Proof.
  intros Hini. rewrite tsl2561Disable_eq.
  skip_lazy Hini.
  prim. pure_step. exists e, b. unfold after. cbn.
  rewrite <- app_assoc. reflexivity.
Qed.

Lemma SetTiming_initialised (n : nat) (it : tsl2561IntegrationTime_t)
    (g : tsl2561Gain_t) (s : state B) :
  _tsl2561Initialised s = true ->
  exists e s' d,
    tsl2561SetTiming h bl (S (S n)) it g s = Some (e, s') /\
    calls s' = calls s ++ d /\
    _tsl2561Initialised s' = true /\
    SetTiming_outcome it g (timing s) (timing s') e [] [] d.
Proof.
  intros Hini. rewrite tsl2561SetTiming_eq.
  skip_lazy Hini.
  destruct (Enable_initialised n s Hini) as (e1 & b1 & E1).
  into E1. clear E1.
  destruct (is_error e1) eqn:Herr1.
  { eexists e1, _, _. split; [reflexivity|]. split; [reflexivity|].
    split; [exact Hini|]. left. auto. }
  assert (e1 = TSL2561_ERROR_OK) as -> by (destruct e1; (discriminate || reflexivity)).
  prim. destruct (is_error e) eqn:Herr2.
  { eexists e, _, _. split; [reflexivity|]. cbn [calls after].
    split; [rewrite <- app_assoc; reflexivity|].
    split; [exact Hini|]. right. left. auto. }
  assert (e = TSL2561_ERROR_OK) as -> by (destruct e; (discriminate || reflexivity)).
  pure_step.
  match goal with
  | |- context [bind (tsl2561Disable h bl (S n)) _ ?s3] =>
      destruct (Disable_initialised n s3 Hini) as (e3 & b3 & E3);
      into E3; clear E3
  end.
  exists e3. eexists _, _.
  split; [destruct (is_error e3); reflexivity|]. cbn [calls after].
  split; [rewrite <- !app_assoc; reflexivity|].
  split; [exact Hini|]. right. right. auto.
Qed.

(** *** Lazy initialisation *)

Lemma keeps_flag_refl (s : state B) : keeps_flag s s.
Proof. split; auto. Qed.

Lemma keeps_flag_trans (s s0 s1 : state B) :
  keeps_flag s s0 -> keeps_flag s0 s1 -> keeps_flag s s1.
Proof. intros [H1 H2] [H3 H4]. split; auto. Qed.

Lemma keeps_flag_same (s s0 s1 : state B) :
  keeps_flag s s0 -> _tsl2561Initialised s1 = _tsl2561Initialised s0 ->
  keeps_flag s s1.
Proof. intros [H1 H2] Heq. split; rewrite Heq; auto. Qed.

Lemma attempts_app (s s0 : state B) (p1 p2 : list event) :
  attempts 1 s p1 -> keeps_flag s s0 -> attempts 1 s0 p2 ->
  attempts 2 s (p1 ++ p2).
Proof.
  intros [H1 H2] [H3 H4] [H5 H6]. split.
  - intros Hini. rewrite H1, H5; auto.
  - intros Hf Hini. rewrite H2, H6; auto.
Qed.

Lemma attempts_later (k : nat) (s s0 : state B) (p : list event) :
  keeps_flag s s0 -> attempts k s0 p -> attempts k s p.
Proof. intros [H1 H2] [H3 H4]. split; auto. Qed.

Lemma attempts_none (k : nat) (s : state B) :
  _tsl2561Initialised s = true -> attempts k s [].
Proof. intros Hini. split; [reflexivity|]. intros _ Hc. congruence. Qed.

Lemma Init_spec (n : nat) (s : state B) :
  exists e s' d,
    tsl2561Init h bl (S (S (S n))) s = Some (e, s') /\
    calls s' = calls s ++ d /\
    timing s' = timing s /\
    (init_fails ->
     _tsl2561Initialised s' = _tsl2561Initialised s /\ d = [Ev_i2cInit false]).
Proof.
  rewrite tsl2561Init_eq.
  destruct (i2cInit_spec s) as (b & E). into E. clear E.
  destruct (fst (bus_i2cInit bl (bus s))) eqn:Hok; cbn [negb].
  - do 3 pure_step.
    match goal with
    | |- context [bind (tsl2561SetTiming h bl (S (S n)) ?it ?g) _ ?s1] =>
        destruct (SetTiming_initialised n it g s1 eq_refl)
          as (e & s' & d & E & Hc & _ & Hout);
        into E; clear E
    end.
    exists TSL2561_ERROR_OK, s', (Ev_i2cInit true :: d).
    split; [reflexivity|]. cbn [calls after] in Hc.
    split; [rewrite Hc, <- app_assoc; reflexivity|].
    split.
    + destruct Hout as [(_ & _ & Ht) | [(_ & _ & Ht) | (_ & Ht)]]; exact Ht.
    + intros Hf. specialize (Hf (bus s)). congruence.
  - exists TSL2561_ERROR_I2CINIT. eexists _, _.
    split; [reflexivity|]. split; [reflexivity|]. split; [reflexivity|].
    intros _. split; reflexivity.
Qed.

Lemma lazy_spec (n : nat) (s : state B) :
  exists s' pre,
    lazy_init (tsl2561Init h bl (S (S (S n)))) s = Some (tt, s') /\
    calls s' = calls s ++ pre /\
    timing s' = timing s /\
    keeps_flag s s' /\
    attempts 1 s pre.
Proof.
  destruct (_tsl2561Initialised s) eqn:Hini.
  - exists s, []. split; [apply lazy_init_set; exact Hini|].
    split; [rewrite app_nil_r; reflexivity|]. split; [reflexivity|].
    split; [apply keeps_flag_refl | apply attempts_none; exact Hini].
  - destruct (Init_spec n s) as (e & s' & d & E & Hc & Ht & Hf).
    exists s', d. split; [eapply lazy_init_clear; eassumption|].
    split; [exact Hc|]. split; [exact Ht|]. split; split.
    + congruence.
    + intros Hfail _. destruct (Hf Hfail) as [-> _]. exact Hini.
    + congruence.
    + intros Hfail _. destruct (Hf Hfail) as [_ ->]. reflexivity.
Qed.

Lemma Enable_spec (n : nat) (s : state B) :
  exists e s' pre,
    tsl2561Enable h bl (S (S (S (S n)))) s = Some (e, s') /\
    calls s' = calls s ++ pre ++ enable_events e /\
    timing s' = timing s /\
    keeps_flag s s' /\
    attempts 1 s pre.
Proof.
  rewrite tsl2561Enable_eq.
  destruct (lazy_spec n s) as (s0 & pre & E & Hc & Ht & Hk & Ha).
  into E. clear E. prim. pure_step.
  exists e. eexists _, pre. split; [reflexivity|]. cbn [calls after].
  split; [rewrite Hc, <- !app_assoc; reflexivity|].
  split; [exact Ht|]. split; [|exact Ha].
  eapply keeps_flag_same; [exact Hk | reflexivity].
Qed.

Lemma Disable_spec (n : nat) (s : state B) :
  exists e s' pre,
    tsl2561Disable h bl (S (S (S (S n)))) s = Some (e, s') /\
    calls s' = calls s ++ pre ++ disable_events e /\
    timing s' = timing s /\
    keeps_flag s s' /\
    attempts 1 s pre.
Proof.
  rewrite tsl2561Disable_eq.
  destruct (lazy_spec n s) as (s0 & pre & E & Hc & Ht & Hk & Ha).
  into E. clear E. prim. pure_step.
  exists e. eexists _, pre. split; [reflexivity|]. cbn [calls after].
  split; [rewrite Hc, <- !app_assoc; reflexivity|].
  split; [exact Ht|]. split; [|exact Ha].
  eapply keeps_flag_same; [exact Hk | reflexivity].
Qed.

(** *** The two sequences, from any state *)

Definition idle_attempts (k : nat) (s : state B) : list event :=
  if _tsl2561Initialised s then [] else repeat (Ev_i2cInit false) k.

Lemma attempts_idle (k : nat) (s : state B) : attempts k s (idle_attempts k s).
Proof.
  unfold idle_attempts. split; intros; destruct (_tsl2561Initialised s);
    congruence.
Qed.

Lemma not_error_OK (e : tsl2561Error_t) : is_error e = false -> e = TSL2561_ERROR_OK.
Proof. destruct e; (discriminate || reflexivity). Qed.

Lemma SetTiming_spec (n : nat) (it : tsl2561IntegrationTime_t)
    (g : tsl2561Gain_t) (s : state B) :
  exists e s' d pre mid,
    tsl2561SetTiming h bl (S (S (S (S (S n))))) it g s = Some (e, s') /\
    calls s' = calls s ++ d /\
    keeps_flag s s' /\
    attempts 2 s pre /\
    attempts 1 s mid /\
    SetTiming_outcome it g (timing s) (timing s') e pre mid d.
Proof.
  rewrite tsl2561SetTiming_eq.
  destruct (lazy_spec (S n) s) as (s0 & p1 & E0 & Hc0 & Ht0 & Hk0 & Ha0).
  into E0. clear E0.
  destruct (Enable_spec n s0) as (e1 & s1 & p2 & E1 & Hc1 & Ht1 & Hk1 & Ha1).
  into E1. clear E1.
  pose proof (keeps_flag_trans _ _ _ Hk0 Hk1) as Hk01.
  pose proof (attempts_app _ _ _ _ Ha0 Hk0 Ha1) as Hpre.
  destruct (is_error e1) eqn:Herr1.
  { exists e1, s1, (p1 ++ p2 ++ enable_events e1), (p1 ++ p2), (idle_attempts 1 s).
    split; [reflexivity|].
    split; [rewrite Hc1, Hc0, <- !app_assoc; reflexivity|].
    split; [exact Hk01|]. split; [exact Hpre|]. split; [apply attempts_idle|].
    left. split; [exact Herr1|]. split; [rewrite <- !app_assoc; reflexivity|].
    congruence. }
  apply not_error_OK in Herr1. subst e1.
  prim. destruct (is_error e) eqn:Herr2.
  { exists e. eexists _, _, (p1 ++ p2), (idle_attempts 1 s).
    split; [reflexivity|]. cbn [calls after].
    split; [rewrite Hc1, Hc0, <- !app_assoc; reflexivity|].
    split; [eapply keeps_flag_same; [exact Hk01 | reflexivity]|].
    split; [exact Hpre|]. split; [apply attempts_idle|].
    right. left. split; [exact Herr2|]. split; [|unfold timing in *; cbn; congruence].
    rewrite <- !app_assoc. reflexivity. }
  apply not_error_OK in Herr2. subst e.
  pure_step.
  match goal with
  | |- context [bind (tsl2561Disable h bl _) _ ?s3] =>
      destruct (Disable_spec n s3) as (e3 & s4 & mid & E3 & Hc3 & Ht3 & Hk3 & Ha3);
      into E3; clear E3;
      assert (keeps_flag s s3) as Hk3'
        by (eapply keeps_flag_same; [exact Hk01 | reflexivity])
  end.
  exists e3, s4. eexists _, (p1 ++ p2), mid.
  split; [destruct (is_error e3); reflexivity|]. cbn [calls after] in Hc3.
  split; [rewrite Hc3, Hc1, Hc0, <- !app_assoc; reflexivity|].
  split; [eapply keeps_flag_trans; eassumption|].
  split; [exact Hpre|].
  split; [eapply attempts_later; eassumption|].
  right. right. split; [rewrite <- !app_assoc; reflexivity|]. exact Ht3.
Qed.

Lemma GetLuminosity_spec (n : nat) (broadband ir : Z) (s : state B) :
  exists e bb' ir' s' d pre mid,
    tsl2561GetLuminosity h bl (S (S (S (S n)))) broadband ir s
      = Some ((e, bb', ir'), s') /\
    calls s' = calls s ++ d /\
    timing s' = timing s /\
    keeps_flag s s' /\
    attempts 2 s pre /\
    attempts 1 s mid /\
    GetLuminosity_outcome (delay_ms (_tsl2561IntegrationTime s))
      broadband ir bb' ir' e pre mid d.
Proof.
  unfold tsl2561GetLuminosity.
  destruct (lazy_spec (S n) s) as (s0 & p1 & E0 & Hc0 & Ht0 & Hk0 & Ha0).
  into E0. clear E0.
  destruct (Enable_spec n s0) as (e1 & s1 & p2 & E1 & Hc1 & Ht1 & Hk1 & Ha1).
  into E1. clear E1.
  pose proof (keeps_flag_trans _ _ _ Hk0 Hk1) as Hk01.
  pose proof (attempts_app _ _ _ _ Ha0 Hk0 Ha1) as Hpre.
  assert (timing s1 = timing s) as Ht01 by congruence.
  destruct (is_error e1) eqn:Herr1.
  { exists e1, broadband, ir, s1, (p1 ++ p2 ++ enable_events e1), (p1 ++ p2),
      (idle_attempts 1 s).
    split; [reflexivity|].
    split; [rewrite Hc1, Hc0, <- !app_assoc; reflexivity|].
    split; [exact Ht01|].
    split; [exact Hk01|]. split; [exact Hpre|]. split; [apply attempts_idle|].
    left. split; [exact Herr1|]. split; [rewrite <- !app_assoc; reflexivity|].
    split; reflexivity. }
  apply not_error_OK in Herr1. subst e1.
  pure_step.
  replace (_tsl2561IntegrationTime s1) with (_tsl2561IntegrationTime s)
    by (unfold timing in Ht01; congruence).
  prim. prim. cbn [fst snd]. destruct (is_error e) eqn:Herr2.
  { exists e. eexists _, ir, _, _, (p1 ++ p2), (idle_attempts 1 s).
    split; [reflexivity|]. cbn [calls after].
    split; [rewrite Hc1, Hc0, <- !app_assoc; reflexivity|].
    split; [exact Ht01|].
    split; [eapply keeps_flag_same; [exact Hk01 | reflexivity]|].
    split; [exact Hpre|]. split; [apply attempts_idle|].
    right. left. exists v. split; [exact Herr2|].
    split; [rewrite <- !app_assoc; reflexivity|]. split; reflexivity. }
  apply not_error_OK in Herr2. subst e.
  prim. cbn [fst snd]. destruct (is_error e) eqn:Herr3.
  { exists e. eexists _, _, _, _, (p1 ++ p2), (idle_attempts 1 s).
    split; [reflexivity|]. cbn [calls after].
    split; [rewrite Hc1, Hc0, <- !app_assoc; reflexivity|].
    split; [exact Ht01|].
    split; [eapply keeps_flag_same; [exact Hk01 | reflexivity]|].
    split; [exact Hpre|]. split; [apply attempts_idle|].
    right. right. left. exists v, v0. split; [exact Herr3|].
    split; [rewrite <- !app_assoc; reflexivity|]. split; reflexivity. }
  apply not_error_OK in Herr3. subst e.
  match goal with
  | |- context [bind (tsl2561Disable h bl _) _ ?s3] =>
      destruct (Disable_spec n s3) as (e3 & s4 & mid & E3 & Hc3 & Ht3 & Hk3 & Ha3);
      into E3; clear E3;
      assert (keeps_flag s s3) as Hk3'
        by (eapply keeps_flag_same; [exact Hk01 | reflexivity])
  end.
  exists e3. eexists _, _, s4, _, (p1 ++ p2), mid.
  split; [destruct (is_error e3); reflexivity|]. cbn [calls after] in Hc3.
  split; [rewrite Hc3, Hc1, Hc0, <- !app_assoc; reflexivity|].
  split; [rewrite Ht3; exact Ht01|].
  split; [eapply keeps_flag_trans; eassumption|].
  split; [exact Hpre|].
  split; [eapply attempts_later; eassumption|].
  right. right. right. exists v, v0.
  split; [rewrite <- !app_assoc; reflexivity|]. split; reflexivity.
Qed.

(** *** The sequences of tsl2561SetTiming and tsl2561GetLuminosity *)


(** C9. While the bus cannot be brought up, a call on a driver that is not
    initialised attempts the initialisation at each lazy check and drops what
    tsl2561Init returns: the call goes on to its bus transactions, its result
    is the result of one of them, and the flag is still false afterwards, so
    that the next call attempts the initialisation again. *)
Theorem lazy_init_failure_ignored (fuel : nat) (it : tsl2561IntegrationTime_t)
    (g : tsl2561Gain_t) (broadband ir : Z) (s : state B) :
  init_fails ->
  _tsl2561Initialised s = false ->
  (5 <= fuel)%nat ->
  (exists e s',
      tsl2561Enable h bl fuel s = Some (e, s') /\
      _tsl2561Initialised s' = false /\
      calls s' = calls s ++ [Ev_i2cInit false] ++ enable_events e) /\
  (exists e s',
      tsl2561Disable h bl fuel s = Some (e, s') /\
      _tsl2561Initialised s' = false /\
      calls s' = calls s ++ [Ev_i2cInit false] ++ disable_events e) /\
  (exists e s' d,
      tsl2561SetTiming h bl fuel it g s = Some (e, s') /\
      _tsl2561Initialised s' = false /\
      calls s' = calls s ++ d /\
      SetTiming_outcome it g (timing s) (timing s') e
        [Ev_i2cInit false; Ev_i2cInit false] [Ev_i2cInit false] d) /\
  (exists e bb' ir' s' d,
      tsl2561GetLuminosity h bl fuel broadband ir s = Some ((e, bb', ir'), s') /\
      _tsl2561Initialised s' = false /\
      calls s' = calls s ++ d /\
      GetLuminosity_outcome (delay_ms (_tsl2561IntegrationTime s))
        broadband ir bb' ir' e
        [Ev_i2cInit false; Ev_i2cInit false] [Ev_i2cInit false] d).
Proof.
  intros Hfail Hini Hfuel. destruct fuel as [|[|[|[|[|n]]]]]; try lia.
  split; [|split; [|split]].
  - destruct (Enable_spec (S n) s) as (e & s' & pre & E & Hc & _ & [_ Hk] & [_ Ha]).
    exists e, s'. rewrite (Ha Hfail Hini) in Hc. auto.
  - destruct (Disable_spec (S n) s) as (e & s' & pre & E & Hc & _ & [_ Hk] & [_ Ha]).
    exists e, s'. rewrite (Ha Hfail Hini) in Hc. auto.
  - destruct (SetTiming_spec n it g s)
      as (e & s' & d & pre & mid & E & Hc & [_ Hk] & [_ Hpre] & [_ Hmid] & Hout).
    exists e, s', d. rewrite (Hpre Hfail Hini), (Hmid Hfail Hini) in Hout. auto.
  - destruct (GetLuminosity_spec (S n) broadband ir s)
      as (e & bb' & ir' & s' & d & pre & mid & E & Hc & _ & [_ Hk] & [_ Hpre] & [_ Hmid] & Hout).
    exists e, bb', ir', s', d.
    rewrite (Hpre Hfail Hini), (Hmid Hfail Hini) in Hout. auto.
Qed.

End WithBus.

(** *** A simulated bus *)

(** A bus layer that plays a script: the results of the successive register
    writes and of the successive reads. Past the end of a script every
    operation succeeds. *)
Record script := {
  write_results : list tsl2561Error_t;
  read_results : list (tsl2561Error_t * option Z)
}.

Definition scripted_bus : bus_layer script := {|
  bus_Write8 := fun _ _ b =>
    match write_results b with
    | [] => (TSL2561_ERROR_OK, b)
    | e :: l => (e, {| write_results := l; read_results := read_results b |})
    end;
  bus_Read16 := fun _ b =>
    match read_results b with
    | [] => (TSL2561_ERROR_OK, Some 0, b)
    | (e, v) :: l => (e, v, {| write_results := write_results b; read_results := l |})
    end;
  bus_i2cInit := fun b => (true, b);
  bus_systickDelay := fun _ b => b
|}.

Definition initialised_state (b : script) : state script :=
  {| _tsl2561Initialised := true;
     _tsl2561IntegrationTime := TSL2561_INTEGRATIONTIME_402MS;
     _tsl2561Gain := TSL2561_GAIN_0X;
     bus := b; calls := [] |}.

(** The enable succeeds and the write to the timing register fails. *)
Definition timing_write_fails : script :=
  {| write_results := [TSL2561_ERROR_OK; TSL2561_ERROR_I2CBUSY]; read_results := [] |}.

(** The read of channel 0 stores 1234 and the read of channel 1 fails. *)
Definition chan1_read_fails : script :=
  {| write_results := [];
     read_results := [(TSL2561_ERROR_OK, Some 1234); (TSL2561_ERROR_I2CBUSY, None)] |}.


(** The same call evaluated: the error of the write comes back and the two
    statics keep their values. *)
Example tsl2561SetTiming_failed_write :
  option_map (fun r => (fst r, timing (snd r)))
    (tsl2561SetTiming (datasheet_h false) scripted_bus 5
       TSL2561_INTEGRATIONTIME_13MS TSL2561_GAIN_16X
       (initialised_state timing_write_fails))
  = Some (TSL2561_ERROR_I2CBUSY,
          (TSL2561_INTEGRATIONTIME_402MS, TSL2561_GAIN_0X)).
Proof. reflexivity. Qed.

(** Over a bus layer whose second read returns an error, which no bus
    function of tsl2561.c does: the call returns the error, and the broadband
    cell, 0 before the call, holds what the first read stored. *)
Example tsl2561GetLuminosity_failed_read :
  option_map fst
    (tsl2561GetLuminosity (datasheet_h false) scripted_bus 5 0 0
       (initialised_state chan1_read_fails))
  = Some (TSL2561_ERROR_I2CBUSY, 1234, 0).
Proof. reflexivity. Qed.

(** On the bus layer of this file, over hardware whose bus cannot be brought
    up, the four operations of a driver that was never initialised. *)
Lemma lazy_init_failure_ignored_witness :
  (exists e s',
      tsl2561Enable (datasheet_h false)
        (real_bus (datasheet_h false) BusFacts.failing_hardware) 5
        (power_on_state BusFacts.idle_i2c) = Some (e, s') /\
      _tsl2561Initialised s' = false /\
      calls s' = calls (power_on_state BusFacts.idle_i2c)
                 ++ [Ev_i2cInit false] ++ enable_events (datasheet_h false) e).
Proof.
  apply (lazy_init_failure_ignored (datasheet_h false)
           (real_bus (datasheet_h false) BusFacts.failing_hardware) 5
           TSL2561_INTEGRATIONTIME_101MS TSL2561_GAIN_16X 0 0
           (power_on_state BusFacts.idle_i2c)).
  - intros b. reflexivity.
  - reflexivity.
  - lia.
Defined.

(** The same call evaluated: tsl2561Enable answers TSL2561_ERROR_OK although
    the initialisation it triggered failed, and the flag stays false. *)
Example tsl2561Enable_after_failed_init :
  option_map (fun r => (fst r, _tsl2561Initialised (snd r), calls (snd r)))
    (tsl2561Enable (datasheet_h false)
       (real_bus (datasheet_h false) BusFacts.failing_hardware) 5
       (power_on_state BusFacts.idle_i2c))
  = Some (TSL2561_ERROR_OK, false,
          [Ev_i2cInit false;
           Ev_Write8 0x80 0x03 TSL2561_ERROR_OK;
           Ev_Enable TSL2561_ERROR_OK]).
Proof. reflexivity. Qed.

End DriverFacts.

(** ** More on the lux computation *)

Module LuxMore.
Import Lux LuxFacts.

Lemma shiftr_u32_bound (x n : Z) :
  0 <= n <= 32 -> 0 <= Z.shiftr (u32 x) n < 2 ^ (32 - n).
Proof.
  intros Hn. pose proof (u32_range x) as Hx.
  rewrite Z.shiftr_div_pow2 by lia.
  assert (0 < 2 ^ n) by (apply Z.pow_pos_nonneg; lia).
  split; [apply Z.div_pos; lia|].
  apply Z.div_lt_upper_bound; [assumption|].
  rewrite <- Z.pow_add_r by lia. replace (n + (32 - n)) with 32 by lia. lia.
Qed.

(** The returned lux has at most [32 - TSL2561_LUX_LUXSCALE] significant bits,
    whatever the counts and the timing. *)
Theorem tsl2561CalculateLux_range (h : tsl2561_h) {B : Type}
    (s : Driver.state B) (ch0 ch1 l : Z) :
  0 <= TSL2561_LUX_LUXSCALE h <= 32 ->
  Driver.tsl2561CalculateLux h ch0 ch1 s = Some l ->
  0 <= l < 2 ^ (32 - TSL2561_LUX_LUXSCALE h).
Proof.
  intros HL. unfold Driver.tsl2561CalculateLux, calculateLux.
  destruct (select_bm _ _) as [[b m]|]; [|discriminate].
  intros Heq. injection Heq as <-. unfold lux_of.
  apply shiftr_u32_bound. exact HL.
Qed.

Lemma tsl2561CalculateLux_range_witness :
  0 <= 261926 < 2 ^ (32 - TSL2561_LUX_LUXSCALE (datasheet_h false)).
Proof.
  apply (tsl2561CalculateLux_range (datasheet_h false)
           (timing_state TSL2561_INTEGRATIONTIME_402MS TSL2561_GAIN_0X) 0 500 261926).
  - simpl. lia.
  - vm_compute. reflexivity.
Defined.

(** When the ratio is above every finite threshold and the coefficients of
    the catch-all entry are both zero, as in the data sheet's tables, the lux
    is 0 for every pair of counts. *)
Theorem tsl2561CalculateLux_catch_all (h : tsl2561_h) {B : Type}
    (s : Driver.state B) (ch0 ch1 : Z) :
  1 <= TSL2561_LUX_LUXSCALE h ->
  u32 (LUX_K8 (package_table h)) <= u32 (LUX_K7 (package_table h)) ->
  catch_all (package_table h) = (0, 0) ->
  List.Forall
    (fun e => fst e < ratio_of h (Driver._tsl2561IntegrationTime s)
                        (Driver._tsl2561Gain s) (u16 ch0) (u16 ch1))
    (finite_breakpoints (package_table h)) ->
  Driver.tsl2561CalculateLux h ch0 ch1 s = Some 0.
Proof.
  intros HL H87 Hzero Hall.
  unfold Driver.tsl2561CalculateLux, calculateLux.
  fold (channel h (Driver._tsl2561IntegrationTime s) (Driver._tsl2561Gain s) (u16 ch0)).
  fold (channel h (Driver._tsl2561IntegrationTime s) (Driver._tsl2561Gain s) (u16 ch1)).
  fold (ratio_of h (Driver._tsl2561IntegrationTime s) (Driver._tsl2561Gain s)
          (u16 ch0) (u16 ch1)).
  rewrite select_bm_is_first; [| apply rounded_ratio_nonneg | exact H87].
  unfold first_breakpoint. rewrite find_none_all.
  - rewrite Hzero. f_equal. unfold lux_of. rewrite !Z.mul_0_r.
    change (u32 0) with 0. change (0 - 0) with 0. change (u32 0) with 0.
    change (0 <? 0) with false. cbv iota. rewrite Z.add_0_l.
    apply rounding_bias_vanishes. exact HL.
  - eapply List.Forall_impl; [|exact Hall].
    intros a Ha. apply Z.leb_gt. exact Ha.
Qed.

Lemma tsl2561CalculateLux_catch_all_witness :
  Driver.tsl2561CalculateLux (datasheet_h false) 100 200
    (timing_state TSL2561_INTEGRATIONTIME_101MS TSL2561_GAIN_16X) = Some 0.
Proof.
  apply (tsl2561CalculateLux_catch_all (datasheet_h false)
           (timing_state TSL2561_INTEGRATIONTIME_101MS TSL2561_GAIN_16X) 100 200).
  - simpl. lia.
  - vm_compute. discriminate.
  - reflexivity.
  - repeat constructor.
Defined.

(** In the range where nothing wraps and the raw lux
    [channel0*b - channel1*m] is not negative, the returned lux is the raw
    lux divided by [2^TSL2561_LUX_LUXSCALE] and rounded to the nearest integer,
    halves upwards. *)
Theorem tsl2561CalculateLux_rounds (h : tsl2561_h) {B : Type}
    (s : Driver.state B) (it : tsl2561IntegrationTime_t) (g : tsl2561Gain_t)
    (ch0 ch1 b m : Z) :
  Driver._tsl2561IntegrationTime s = it ->
  Driver._tsl2561Gain s = g ->
  0 <= ch0 < 65536 -> 0 <= ch1 < 65536 ->
  1 <= TSL2561_LUX_LUXSCALE h <= 32 ->
  select_bm (package_table h) (ratio_of h it g ch0 ch1) = Some (b, m) ->
  channel h it g ch0 * b < 2 ^ 32 ->
  channel h it g ch1 * m <= channel h it g ch0 * b ->
  channel h it g ch0 * b - channel h it g ch1 * m
    + 2 ^ (TSL2561_LUX_LUXSCALE h - 1) < 2 ^ 32 ->
  exists l,
    Driver.tsl2561CalculateLux h ch0 ch1 s = Some l /\
    2 ^ TSL2561_LUX_LUXSCALE h * l
      <= channel h it g ch0 * b - channel h it g ch1 * m
         + 2 ^ (TSL2561_LUX_LUXSCALE h - 1)
      < 2 ^ TSL2561_LUX_LUXSCALE h * (l + 1).
Proof.
  intros Hit Hg H0 H1 HL Hsel Hb Hpos Hsum.
  assert (rounding_bias h = 2 ^ (TSL2561_LUX_LUXSCALE h - 1)) as Hbias.
  { unfold rounding_bias. rewrite Z.shiftl_1_l. apply u32_small.
    split; [apply Z.pow_nonneg; lia|]. apply Z.pow_lt_mono_r; lia. }
  unfold Driver.tsl2561CalculateLux. rewrite Hit, Hg, !u16_small by lia.
  rewrite (calculateLux_exact h it g ch0 ch1 b m) by (rewrite ?Hbias; assumption || lia).
  eexists. split; [reflexivity|]. rewrite Hbias.
  rewrite Z.shiftr_div_pow2 by lia.
  assert (0 < 2 ^ TSL2561_LUX_LUXSCALE h) by (apply Z.pow_pos_nonneg; lia).
  split; [apply Z.mul_div_le; assumption|].
  apply Z.mul_succ_div_gt. assumption.
Qed.

Lemma tsl2561CalculateLux_rounds_witness :
  exists l,
    Driver.tsl2561CalculateLux (datasheet_h false) 100 30
      (timing_state TSL2561_INTEGRATIONTIME_402MS TSL2561_GAIN_0X) = Some l /\
    2 ^ 14 * l <= 1600 * 0x023f - 480 * 0x037b + 2 ^ 13 < 2 ^ 14 * (l + 1).
Proof.
  apply (tsl2561CalculateLux_rounds (datasheet_h false)
           (timing_state TSL2561_INTEGRATIONTIME_402MS TSL2561_GAIN_0X)
           TSL2561_INTEGRATIONTIME_402MS TSL2561_GAIN_0X 100 30 0x023f 0x037b);
    try reflexivity; try lia; try (simpl; lia);
    vm_compute; try reflexivity; discriminate.
Defined.

Lemma chScale_of_gain (h : tsl2561_h) (it : tsl2561IntegrationTime_t)
    (g1 g16 : tsl2561Gain_t) :
  gain_value h g1 = 0 -> gain_value h g16 <> 0 ->
  chScale_of h it g1 = u32 (chScale_of h it g16 * 16).
Proof.
  intros H1 H16. unfold chScale_of. rewrite H1.
  change (0 =? 0) with true. cbv iota.
  destruct (Z.eqb_spec (gain_value h g16) 0) as [Heq|_]; [contradiction|].
  rewrite Z.shiftl_mul_pow2 by lia. reflexivity.
Qed.

Lemma scale_channel_gain (h : tsl2561_h) (chScale ch : Z) :
  scale_channel h (u32 (chScale * 16)) ch = scale_channel h chScale (16 * ch).
Proof.
  unfold scale_channel, u32. f_equal.
  rewrite Z.mul_mod_idemp_r by lia. f_equal. ring.
Qed.

(** The gain compensation: a pair of counts taken at the gain whose value is
    zero (1x) gives the lux of sixteen times these counts taken at the other
    gain (16x), at the same integration time. *)
Theorem tsl2561CalculateLux_gain (h : tsl2561_h) {B B' : Type}
    (s1 : Driver.state B) (s16 : Driver.state B') (ch0 ch1 : Z) :
  Driver._tsl2561IntegrationTime s1 = Driver._tsl2561IntegrationTime s16 ->
  gain_value h (Driver._tsl2561Gain s1) = 0 ->
  gain_value h (Driver._tsl2561Gain s16) <> 0 ->
  0 <= ch0 < 4096 -> 0 <= ch1 < 4096 ->
  Driver.tsl2561CalculateLux h ch0 ch1 s1 =
  Driver.tsl2561CalculateLux h (16 * ch0) (16 * ch1) s16.
Proof.
  intros Hit H1 H16 Hc0 Hc1.
  unfold Driver.tsl2561CalculateLux, calculateLux.
  rewrite !u16_small by lia. rewrite Hit.
  rewrite (chScale_of_gain h _ _ _ H1 H16), !scale_channel_gain. reflexivity.
Qed.

Lemma tsl2561CalculateLux_gain_witness :
  Driver.tsl2561CalculateLux (datasheet_h false) 100 30
    (timing_state TSL2561_INTEGRATIONTIME_101MS TSL2561_GAIN_0X) =
  Driver.tsl2561CalculateLux (datasheet_h false) (16 * 100) (16 * 30)
    (timing_state TSL2561_INTEGRATIONTIME_101MS TSL2561_GAIN_16X).
Proof.
  apply (tsl2561CalculateLux_gain (datasheet_h false)
           (timing_state TSL2561_INTEGRATIONTIME_101MS TSL2561_GAIN_0X)
           (timing_state TSL2561_INTEGRATIONTIME_101MS TSL2561_GAIN_16X) 100 30);
    try reflexivity; try lia. vm_compute. discriminate.
Defined.

(** With the broadband count and the timing fixed, two infrared counts
    [ch1 <= ch1'] that select the same coefficients give
    [lux ch1' <= lux ch1], provided nothing wraps and the raw lux of the
    larger infrared count is not negative. *)
Theorem tsl2561CalculateLux_antitone_ir (h : tsl2561_h) {B : Type}
    (s : Driver.state B) (it : tsl2561IntegrationTime_t) (g : tsl2561Gain_t)
    (ch0 ch1 ch1' b m : Z) :
  Driver._tsl2561IntegrationTime s = it ->
  Driver._tsl2561Gain s = g ->
  0 <= ch0 < 65536 -> 0 <= ch1 <= ch1' -> ch1' < 65536 ->
  select_bm (package_table h) (ratio_of h it g ch0 ch1) = Some (b, m) ->
  select_bm (package_table h) (ratio_of h it g ch0 ch1') = Some (b, m) ->
  ch1' * chScale_of h it g < 2 ^ 32 ->
  channel h it g ch0 * b - channel h it g ch1 * m + rounding_bias h < 2 ^ 32 ->
  channel h it g ch0 * b < 2 ^ 32 ->
  channel h it g ch1' * m <= channel h it g ch0 * b ->
  exists l l',
    Driver.tsl2561CalculateLux h ch0 ch1 s = Some l /\
    Driver.tsl2561CalculateLux h ch0 ch1' s = Some l' /\
    l' <= l.
Proof.
  intros Hit Hg Hch0 Hch Hch' Hsel Hsel' Hfit Hsum Hb Hpos.
  pose proof (channel_mono h it g ch1 ch1' Hch Hfit) as Hmono.
  destruct (select_bm_range _ _ _ _ Hsel) as [Hbr Hmr].
  assert (channel h it g ch1 * m <= channel h it g ch1' * m)
    by (apply Z.mul_le_mono_nonneg_r; lia).
  assert (0 <= channel h it g ch1 * m).
  { apply Z.mul_nonneg_nonneg; [apply scale_channel_nonneg | lia]. }
  assert (0 <= rounding_bias h) by apply u32_range.
  unfold Driver.tsl2561CalculateLux. rewrite Hit, Hg.
  rewrite !u16_small by lia.
  rewrite (calculateLux_exact h it g ch0 ch1 b m) by (assumption || lia).
  rewrite (calculateLux_exact h it g ch0 ch1' b m) by (assumption || lia).
  eexists _, _. split; [reflexivity|]. split; [reflexivity|].
  apply shiftr_mono. lia.
Qed.

Lemma tsl2561CalculateLux_antitone_ir_witness :
  exists l l',
    Driver.tsl2561CalculateLux (datasheet_h false) 5000 450
      (timing_state TSL2561_INTEGRATIONTIME_402MS TSL2561_GAIN_0X) = Some l /\
    Driver.tsl2561CalculateLux (datasheet_h false) 5000 500
      (timing_state TSL2561_INTEGRATIONTIME_402MS TSL2561_GAIN_0X) = Some l' /\
    l' <= l.
Proof.
  apply (tsl2561CalculateLux_antitone_ir (datasheet_h false)
           (timing_state TSL2561_INTEGRATIONTIME_402MS TSL2561_GAIN_0X)
           TSL2561_INTEGRATIONTIME_402MS TSL2561_GAIN_0X
           5000 450 500 0x01f2 0x01be);
    try lia; vm_compute; try reflexivity; discriminate.
Defined.

End LuxMore.

(** ** More on the bus transaction layer *)

Module BusMore.
Import Bus.

Lemma low_high_disjoint (lo hi : Z) :
  0 <= lo < 256 -> Z.land lo (Z.shiftl hi 8) = 0.
Proof.
  intros Hlo. apply Z.bits_inj'. intros n Hn.
  rewrite Z.land_spec, Z.bits_0.
  destruct (Z.lt_ge_cases n 8) as [Hlt | Hge].
  - rewrite (Z.shiftl_spec_low hi 8 n Hlt). apply andb_false_r.
  - destruct (Z.eq_dec lo 0) as [-> | Hnz]; [rewrite Z.bits_0; reflexivity|].
    rewrite (Z.bits_above_log2 lo n); [reflexivity | lia |].
    assert (Z.log2 lo < 8) by (apply Z.log2_lt_pow2; lia). lia.
Qed.

Lemma little_endian (lo hi : Z) :
  0 <= lo < 256 -> 0 <= hi < 256 ->
  u16 (Z.lor (u8 lo) (Z.shiftl (u8 hi) 8)) = lo + 256 * hi.
Proof.
  intros Hlo Hhi. unfold u8. rewrite !Z.mod_small by lia.
  rewrite <- Z.lxor_lor by (apply low_high_disjoint; exact Hlo).
  rewrite <- Z.add_nocarry_lxor by (apply low_high_disjoint; exact Hlo).
  rewrite Z.shiftl_mul_pow2 by lia. unfold u16. rewrite Z.mod_small; lia.
Qed.


Section WithHardware.
Context (h : tsl2561_h) {H : Type} (ext : hardware H).




(** tsl2561Read16 assembles the two bytes the engine left at the head of the
    receive buffer low byte first, into a value below 65536. *)
Theorem tsl2561Read16_little_endian (reg lo hi : Z) (rest : list Z) (s : i2c H) :
  I2CSlaveBuffer (snd (tsl2561Read16 h ext reg s)) = lo :: hi :: rest ->
  0 <= lo < 256 -> 0 <= hi < 256 ->
  snd (fst (tsl2561Read16 h ext reg s)) = lo + 256 * hi /\
  snd (fst (tsl2561Read16 h ext reg s)) mod 256 = lo /\
  snd (fst (tsl2561Read16 h ext reg s)) / 256 = hi.
Proof.
  unfold tsl2561Read16. cbn [fst snd]. intros Hbuf Hlo Hhi.
  unfold slave_byte. rewrite Hbuf. cbn [lookup list_lookup default].
  rewrite little_endian by assumption. cbv [id].
  split; [reflexivity|]. split.
  - rewrite (Z.mul_comm 256 hi), Z.mod_add by lia. apply Z.mod_small. lia.
  - rewrite (Z.mul_comm 256 hi), Z.div_add by lia.
    rewrite Z.div_small by lia. lia.
Qed.

(** tsl2561Read16 clears the transmit buffer and never the receive buffer:
    over an engine that leaves the receive buffer as it finds it, as after a
    transfer that did not take place, the operation still returns
    TSL2561_ERROR_OK and stores the value assembled from the two bytes that
    were at the head of the receive buffer before the call. *)
Theorem tsl2561Read16_stale (reg : Z) (s : i2c H) :
  (forall master wl rl slave hw,
      snd (fst (i2cEngine ext master wl rl slave hw)) = slave) ->
  fst (tsl2561Read16 h ext reg s) =
  (TSL2561_ERROR_OK,
   u16 (Z.lor (slave_byte 0 s) (Z.shiftl (slave_byte 1 s) 8))) /\
  I2CSlaveBuffer (snd (tsl2561Read16 h ext reg s)) = I2CSlaveBuffer s.
Proof.
  intros Hkeeps. unfold tsl2561Read16. cbn [fst snd].
  match goal with
  | |- context [run_engine ext ?s'] =>
      assert (I2CSlaveBuffer (run_engine ext s') = I2CSlaveBuffer s) as Hbuf
  end.
  { unfold run_engine.
    match goal with
    | |- context [i2cEngine ext ?m ?wl ?rl ?sl ?hw] =>
        pose proof (Hkeeps m wl rl sl hw) as Hk;
        destruct (i2cEngine ext m wl rl sl hw) as [[ok slave] hw']
    end.
    cbn [fst snd] in Hk. subst slave.
    cbn [I2CSlaveBuffer store_master set_lengths].
    unfold clear_write_buffers. destruct (clear_loop _ _ _). reflexivity. }
  split; [|exact Hbuf].
  unfold slave_byte. rewrite Hbuf. reflexivity.
Qed.

End WithHardware.

(** Hardware whose engine answers every transfer with the bytes 0x34, 0x12. *)
Definition answering_hardware : hardware unit := {|
  i2cEngine := fun _ _ _ _ hw => (true, [0x34; 0x12; 0; 0; 0; 0], hw);
  i2cInit := fun hw => (true, hw);
  systickDelay := fun _ hw => hw
|}.


Lemma tsl2561Read16_little_endian_witness :
  snd (fst (tsl2561Read16 (datasheet_h false) answering_hardware 0xAC
              BusFacts.idle_i2c)) = 0x34 + 256 * 0x12.
Proof.
  apply (tsl2561Read16_little_endian (datasheet_h false) answering_hardware
           0xAC 0x34 0x12 [0; 0; 0; 0] BusFacts.idle_i2c).
  - reflexivity.
  - lia.
  - lia.
Defined.

Lemma tsl2561Read16_stale_witness :
  fst (tsl2561Read16 (datasheet_h false) BusFacts.failing_hardware 0xAC
         BusFacts.idle_i2c)
  = (TSL2561_ERROR_OK,
     u16 (Z.lor (slave_byte 0 BusFacts.idle_i2c)
                (Z.shiftl (slave_byte 1 BusFacts.idle_i2c) 8))).
Proof.
  apply (tsl2561Read16_stale (datasheet_h false) BusFacts.failing_hardware 0xAC
           BusFacts.idle_i2c).
  intros master wl rl slave hw. reflexivity.
Defined.

(** The same call evaluated: the bytes 0xAB, 0xCD left in the receive buffer
    come back as the reading 0xCDAB. *)
Example tsl2561Read16_stale_value :
  fst (tsl2561Read16 (datasheet_h false) BusFacts.failing_hardware 0xAC
         BusFacts.idle_i2c)
  = (TSL2561_ERROR_OK, 0xCDAB).
Proof. reflexivity. Qed.

End BusMore.

(** ** More on the device state manager *)

Module DriverMore.
Import Driver DriverFacts.

Ltac into E := rewrite (bind_Some _ _ _ _ _ E); cbv beta.

Ltac skip_lazy H :=
  rewrite (bind_Some _ _ _ _ _ (lazy_init_set _ _ H)); cbv beta.

Ltac pure_step :=
  unfold bind at 1; cbn [get ret log set_timing set_Initialised]; cbv beta.

(** Number of attempts to bring the bus up in a history. *)
Fixpoint init_attempts (l : list event) : nat :=
  match l with
  | [] => 0
  | Ev_i2cInit _ :: l' => S (init_attempts l')
  | _ :: l' => init_attempts l'
  end.

(** Number of register operations (writes and reads) in a history. *)
Fixpoint reg_ops (l : list event) : nat :=
  match l with
  | [] => 0
  | Ev_Write8 _ _ _ :: l' => S (reg_ops l')
  | Ev_Read16 _ _ _ :: l' => S (reg_ops l')
  | _ :: l' => reg_ops l'
  end.

Lemma reg_ops_app (a b : list event) : reg_ops (a ++ b) = (reg_ops a + reg_ops b)%nat.
Proof.
  induction a as [|ev a IH]; [reflexivity|].
  destruct ev; cbn; rewrite IH; reflexivity.
Qed.

Section WithBus.
Context (h : tsl2561_h) {B : Type} (bl : bus_layer B).

(** tsl2561Init reports TSL2561_ERROR_I2CINIT exactly when i2cInit fails, and
    then changes nothing. When i2cInit succeeds it sets the flag, applies the
    timing the driver holds through tsl2561SetTiming and returns
    TSL2561_ERROR_OK whatever that call returned ([e0]). *)
Theorem tsl2561Init_result (fuel : nat) (s : state B) :
  (3 <= fuel)%nat ->
  exists e s' d,
    tsl2561Init h bl fuel s = Some (e, s') /\
    calls s' = calls s ++ d /\
    (fst (bus_i2cInit bl (bus s)) = false ->
     e = TSL2561_ERROR_I2CINIT /\
     _tsl2561Initialised s' = _tsl2561Initialised s /\
     timing s' = timing s /\
     d = [Ev_i2cInit false]) /\
    (fst (bus_i2cInit bl (bus s)) = true ->
     e = TSL2561_ERROR_OK /\
     _tsl2561Initialised s' = true /\
     exists e0 d0,
       d = Ev_i2cInit true :: d0 /\
       SetTiming_outcome h (_tsl2561IntegrationTime s) (_tsl2561Gain s)
         (timing s) (timing s') e0 [] [] d0).
Proof.
  intros Hfuel. destruct fuel as [|[|[|n]]]; try lia.
  rewrite tsl2561Init_eq.
  destruct (i2cInit_spec bl s) as (b & E). into E. clear E.
  destruct (fst (bus_i2cInit bl (bus s))) eqn:Hok; cbn [negb].
  - do 3 pure_step.
    match goal with
    | |- context [bind (tsl2561SetTiming h bl (S (S n)) ?it ?g) _ ?s1] =>
        destruct (SetTiming_initialised h bl n it g s1 eq_refl)
          as (e0 & s' & d0 & E & Hc & Hini & Hout);
        into E; clear E
    end.
    exists TSL2561_ERROR_OK, s', (Ev_i2cInit true :: d0).
    split; [reflexivity|]. cbn [calls after] in Hc.
    split; [rewrite Hc, <- app_assoc; reflexivity|].
    split; [discriminate|]. intros _.
    split; [reflexivity|]. split; [exact Hini|].
    exists e0, d0. split; [reflexivity | exact Hout].
  - exists TSL2561_ERROR_I2CINIT. eexists _, _.
    split; [reflexivity|]. split; [reflexivity|].
    split; [|discriminate]. intros _. repeat split.
Qed.

(** tsl2561Init, tsl2561Enable and tsl2561Disable never change the integration
    time and the gain the driver holds, from any state and whatever the bus
    answers. *)
Theorem timing_statics_preserved (fuel : nat) (s : state B) :
  (4 <= fuel)%nat ->
  (exists e s', tsl2561Init h bl fuel s = Some (e, s') /\ timing s' = timing s) /\
  (exists e s', tsl2561Enable h bl fuel s = Some (e, s') /\ timing s' = timing s) /\
  (exists e s', tsl2561Disable h bl fuel s = Some (e, s') /\ timing s' = timing s).
Proof.
  intros Hfuel. destruct fuel as [|[|[|[|n]]]]; try lia.
  split; [|split].
  - destruct (Init_spec h bl (S n) s) as (e & s' & d & E & _ & Ht & _). eauto.
  - destruct (Enable_spec h bl n s) as (e & s' & pre & E & _ & Ht & _). eauto.
  - destruct (Disable_spec h bl n s) as (e & s' & pre & E & _ & Ht & _). eauto.
Qed.

(** Once the driver is initialised no operation attempts the bus
    initialisation again, and the flag stays set, whatever the bus answers. *)
Theorem initialised_driver_stays_initialised (fuel : nat)
    (it : tsl2561IntegrationTime_t) (g : tsl2561Gain_t) (broadband ir : Z)
    (s : state B) :
  _tsl2561Initialised s = true ->
  (5 <= fuel)%nat ->
  (exists e s' d,
      tsl2561Enable h bl fuel s = Some (e, s') /\ calls s' = calls s ++ d /\
      _tsl2561Initialised s' = true /\ init_attempts d = 0%nat) /\
  (exists e s' d,
      tsl2561Disable h bl fuel s = Some (e, s') /\ calls s' = calls s ++ d /\
      _tsl2561Initialised s' = true /\ init_attempts d = 0%nat) /\
  (exists e s' d,
      tsl2561SetTiming h bl fuel it g s = Some (e, s') /\ calls s' = calls s ++ d /\
      _tsl2561Initialised s' = true /\ init_attempts d = 0%nat) /\
  (exists r s' d,
      tsl2561GetLuminosity h bl fuel broadband ir s = Some (r, s') /\
      calls s' = calls s ++ d /\
      _tsl2561Initialised s' = true /\ init_attempts d = 0%nat).
Proof.
  intros Hini Hfuel. destruct fuel as [|[|[|[|[|n]]]]]; try lia.
  split; [|split; [|split]].
  - destruct (Enable_spec h bl (S n) s) as (e & s' & pre & E & Hc & _ & [Hk _] & [Ha _]).
    exists e, s', (pre ++ enable_events h e).
    rewrite (Ha Hini) in *. auto.
  - destruct (Disable_spec h bl (S n) s) as (e & s' & pre & E & Hc & _ & [Hk _] & [Ha _]).
    exists e, s', (pre ++ disable_events h e).
    rewrite (Ha Hini) in *. auto.
  - destruct (SetTiming_spec h bl n it g s)
      as (e & s' & d & pre & mid & E & Hc & [Hk _] & [Hpre _] & [Hmid _] & Hout).
    exists e, s', d. rewrite (Hpre Hini), (Hmid Hini) in Hout.
    split; [exact E|]. split; [exact Hc|]. split; [auto|].
    destruct Hout as [(_ & -> & _) | [(_ & -> & _) | (-> & _)]]; reflexivity.
  - destruct (GetLuminosity_spec h bl (S n) broadband ir s)
      as (e & bb' & ir' & s' & d & pre & mid & E & Hc & _ & [Hk _] & [Hpre _] & [Hmid _] & Hout).
    exists (e, bb', ir'), s', d. rewrite (Hpre Hini), (Hmid Hini) in Hout.
    split; [exact E|]. split; [exact Hc|]. split; [auto|].
    destruct Hout
      as [(_ & -> & _) | [(v0 & _ & -> & _) | [(v0 & v1 & _ & -> & _) | (v0 & v1 & -> & _)]]];
      reflexivity.
Qed.

End WithBus.

Lemma tsl2561Init_result_witness :
  exists e s' d,
    tsl2561Init (datasheet_h false) scripted_bus 3
      (power_on_state timing_write_fails) = Some (e, s') /\
    calls s' = calls (power_on_state timing_write_fails) ++ d /\
    (fst (bus_i2cInit scripted_bus (bus (power_on_state timing_write_fails))) = false ->
     e = TSL2561_ERROR_I2CINIT /\
     _tsl2561Initialised s' = _tsl2561Initialised (power_on_state timing_write_fails) /\
     timing s' = timing (power_on_state timing_write_fails) /\
     d = [Ev_i2cInit false]) /\
    (fst (bus_i2cInit scripted_bus (bus (power_on_state timing_write_fails))) = true ->
     e = TSL2561_ERROR_OK /\
     _tsl2561Initialised s' = true /\
     exists e0 d0,
       d = Ev_i2cInit true :: d0 /\
       SetTiming_outcome (datasheet_h false)
         (_tsl2561IntegrationTime (power_on_state timing_write_fails))
         (_tsl2561Gain (power_on_state timing_write_fails))
         (timing (power_on_state timing_write_fails)) (timing s') e0 [] [] d0).
Proof.
  apply (tsl2561Init_result (datasheet_h false) scripted_bus 3
           (power_on_state timing_write_fails)).
  lia.
Defined.

(** The same call evaluated: the default timing could not be written, and
    tsl2561Init still answers TSL2561_ERROR_OK with the flag set. *)
Example tsl2561Init_hides_failed_timing :
  option_map (fun r => (fst r, _tsl2561Initialised (snd r), calls (snd r)))
    (tsl2561Init (datasheet_h false) scripted_bus 3
       (power_on_state timing_write_fails))
  = Some (TSL2561_ERROR_OK, true,
          [Ev_i2cInit true;
           Ev_Write8 0x80 0x03 TSL2561_ERROR_OK;
           Ev_Enable TSL2561_ERROR_OK;
           Ev_Write8 0x81 0x02 TSL2561_ERROR_I2CBUSY]).
Proof. reflexivity. Qed.

Lemma timing_statics_preserved_witness :
  exists e s',
    tsl2561Enable (datasheet_h false) scripted_bus 4
      (power_on_state timing_write_fails) = Some (e, s') /\
    timing s' = timing (power_on_state timing_write_fails).
Proof.
  apply (timing_statics_preserved (datasheet_h false) scripted_bus 4
           (power_on_state timing_write_fails)).
  lia.
Defined.

Lemma initialised_driver_stays_initialised_witness :
  exists r s' d,
    tsl2561GetLuminosity (datasheet_h false) scripted_bus 5 0 0
      (initialised_state chan1_read_fails) = Some (r, s') /\
    calls s' = calls (initialised_state chan1_read_fails) ++ d /\
    _tsl2561Initialised s' = true /\ init_attempts d = 0%nat.
Proof.
  apply (initialised_driver_stays_initialised (datasheet_h false) scripted_bus 5
           TSL2561_INTEGRATIONTIME_13MS TSL2561_GAIN_16X 0 0
           (initialised_state chan1_read_fails)).
  - reflexivity.
  - lia.
Defined.

End DriverMore.

(** ** The driver over the bus layer of tsl2561.c *)

Module RealDriver.
Import Driver DriverFacts DriverMore.

Ltac into E := rewrite (bind_Some _ _ _ _ _ E); cbv beta.

Ltac skip_lazy H :=
  rewrite (bind_Some _ _ _ _ _ (lazy_init_set _ _ H)); cbv beta.

Ltac pure_step :=
  unfold bind at 1; cbn [get ret log set_timing set_Initialised]; cbv beta.

(** A bus layer whose register operations always succeed, whose reads store
    a 16-bit value, and on which [cost] counts the register operations. *)
Record tame {B : Type} (bl : bus_layer B) (cost : B -> nat) : Prop := {
  tame_Write8 : forall r v b,
    fst (bus_Write8 bl r v b) = TSL2561_ERROR_OK /\
    cost (snd (bus_Write8 bl r v b)) = S (cost b);
  tame_Read16 : forall r b,
    exists v b',
      bus_Read16 bl r b = (TSL2561_ERROR_OK, Some v, b') /\
      0 <= v < 65536 /\ cost b' = S (cost b);
  tame_i2cInit : forall b, cost (snd (bus_i2cInit bl b)) = cost b;
  tame_systickDelay : forall ms b, cost (bus_systickDelay bl ms b) = cost b
}.

Section WithTameBus.
Context (h : tsl2561_h) {B : Type} (bl : bus_layer B) (cost : B -> nat).
Context (Htame : tame bl cost).

(** From [s] to [s'] the history grows by [d], the bus serves the register
    operations of [d], and an initialised driver stays so with [d = dflt]. *)
Definition effect (s s' : state B) (d dflt : list event) : Prop :=
  calls s' = calls s ++ d /\
  cost (bus s') = (cost (bus s) + reg_ops d)%nat /\
  (_tsl2561Initialised s = true -> _tsl2561Initialised s' = true /\ d = dflt).

Lemma effect_trans (s s1 s2 : state B) (d1 d2 e1 e2 : list event) :
  effect s s1 d1 e1 -> effect s1 s2 d2 e2 -> effect s s2 (d1 ++ d2) (e1 ++ e2).
Proof.
  intros (Hc1 & Hk1 & Hf1) (Hc2 & Hk2 & Hf2). split; [|split].
  - rewrite Hc2, Hc1, app_assoc. reflexivity.
  - rewrite Hk2, Hk1, reg_ops_app. lia.
  - intros Hini. destruct (Hf1 Hini) as [Hini1 ->].
    destruct (Hf2 Hini1) as [Hini2 ->]. auto.
Qed.

Lemma effect_after (s : state B) (b : B) (d : list event) :
  cost b = (cost (bus s) + reg_ops d)%nat -> effect s (after s b d) d d.
Proof. intros Hk. split; [reflexivity|]. split; [exact Hk|]. auto. Qed.

Lemma effect_same (s s' : state B) :
  calls s' = calls s -> bus s' = bus s ->
  _tsl2561Initialised s' = _tsl2561Initialised s ->
  effect s s' [] [].
Proof.
  intros Hc Hb Hf. split; [rewrite Hc, app_nil_r; reflexivity|].
  split; [rewrite Hb; cbn; lia|]. rewrite Hf. auto.
Qed.

Lemma Write8_tame (reg value : Z) (s : state B) :
  exists s',
    tsl2561Write8 bl reg value s = Some (TSL2561_ERROR_OK, s') /\
    timing s' = timing s /\
    effect s s' [Ev_Write8 (u8 reg) (u32 value) TSL2561_ERROR_OK]
               [Ev_Write8 (u8 reg) (u32 value) TSL2561_ERROR_OK].
Proof.
  unfold tsl2561Write8, bind, with_bus.
  destruct (tame_Write8 bl cost Htame (u8 reg) (u32 value) (bus s)) as [He Hk].
  destruct (bus_Write8 bl _ _ _) as [e b]. cbn [fst snd] in He, Hk. subst e.
  eexists. split; [reflexivity|]. split; [reflexivity|].
  apply (effect_after s b). cbn. lia.
Qed.

Lemma Read16_tame (reg : Z) (s : state B) :
  exists v s',
    tsl2561Read16 bl reg s = Some ((TSL2561_ERROR_OK, Some v), s') /\
    0 <= v < 65536 /\
    timing s' = timing s /\
    effect s s' [Ev_Read16 (u8 reg) TSL2561_ERROR_OK (Some v)]
               [Ev_Read16 (u8 reg) TSL2561_ERROR_OK (Some v)].
Proof.
  unfold tsl2561Read16, bind, with_bus.
  destruct (tame_Read16 bl cost Htame (u8 reg) (bus s)) as (v & b & -> & Hv & Hk).
  exists v. eexists. split; [reflexivity|]. split; [exact Hv|].
  split; [reflexivity|]. apply (effect_after s b). cbn. lia.
Qed.

Lemma i2cInit_tame (s : state B) :
  exists ok s',
    i2cInit bl s = Some (ok, s') /\
    timing s' = timing s /\
    _tsl2561Initialised s' = _tsl2561Initialised s /\
    calls s' = calls s ++ [Ev_i2cInit ok] /\
    cost (bus s') = cost (bus s).
Proof.
  unfold i2cInit, bind, with_bus.
  pose proof (tame_i2cInit bl cost Htame (bus s)) as Hk.
  destruct (bus_i2cInit bl _) as [ok b]. cbn [snd] in Hk.
  exists ok. eexists. repeat split. exact Hk.
Qed.

Lemma systickDelay_tame (ms : Z) (s : state B) :
  exists s',
    systickDelay bl ms s = Some (tt, s') /\
    timing s' = timing s /\
    effect s s' [Ev_systickDelay ms] [Ev_systickDelay ms].
Proof.
  unfold systickDelay, bind, with_bus. eexists.
  split; [reflexivity|]. split; [reflexivity|].
  apply (effect_after s (bus_systickDelay bl ms (bus s))).
  rewrite (tame_systickDelay bl cost Htame). cbn. lia.
Qed.

Lemma Enable_tame_initialised (n : nat) (s : state B) :
  _tsl2561Initialised s = true ->
  exists s',
    tsl2561Enable h bl (S n) s = Some (TSL2561_ERROR_OK, s') /\
    timing s' = timing s /\
    effect s s' (enable_events h TSL2561_ERROR_OK) (enable_events h TSL2561_ERROR_OK).
Proof.
  intros Hini. rewrite tsl2561Enable_eq. skip_lazy Hini.
  destruct (Write8_tame (control_reg h) (TSL2561_CONTROL_POWERON h) s)
    as (s1 & E & Ht & Hc & Hk & Hf).
  into E. clear E. pure_step. eexists. split; [reflexivity|].
  split; [exact Ht|]. split; [|split].
  - cbn [calls]. rewrite Hc, <- app_assoc. reflexivity.
  - cbn [bus]. rewrite Hk. cbn. lia.
  - intros _. split; [apply Hf; exact Hini | reflexivity].
Qed.

Lemma Disable_tame_initialised (n : nat) (s : state B) :
  _tsl2561Initialised s = true ->
  exists s',
    tsl2561Disable h bl (S n) s = Some (TSL2561_ERROR_OK, s') /\
    timing s' = timing s /\
    effect s s' (disable_events h TSL2561_ERROR_OK) (disable_events h TSL2561_ERROR_OK).
Proof.
  intros Hini. rewrite tsl2561Disable_eq. skip_lazy Hini.
  destruct (Write8_tame (control_reg h) (TSL2561_CONTROL_POWEROFF h) s)
    as (s1 & E & Ht & Hc & Hk & Hf).
  into E. clear E. pure_step. eexists. split; [reflexivity|].
  split; [exact Ht|]. split; [|split].
  - cbn [calls]. rewrite Hc, <- app_assoc. reflexivity.
  - cbn [bus]. rewrite Hk. cbn. lia.
  - intros _. split; [apply Hf; exact Hini | reflexivity].
Qed.

(** The events of a complete tsl2561SetTiming. *)
Definition SetTiming_events (it : tsl2561IntegrationTime_t) (g : tsl2561Gain_t)
    : list event :=
  enable_events h TSL2561_ERROR_OK
  ++ [timing_write h it g TSL2561_ERROR_OK]
  ++ disable_events h TSL2561_ERROR_OK.

Lemma SetTiming_tame_initialised (n : nat) (it : tsl2561IntegrationTime_t)
    (g : tsl2561Gain_t) (s : state B) :
  _tsl2561Initialised s = true ->
  exists s',
    tsl2561SetTiming h bl (S (S n)) it g s = Some (TSL2561_ERROR_OK, s') /\
    timing s' = (it, g) /\
    effect s s' (SetTiming_events it g) (SetTiming_events it g).
Proof.
  intros Hini. rewrite tsl2561SetTiming_eq. skip_lazy Hini.
  destruct (Enable_tame_initialised n s Hini) as (s1 & E1 & Ht1 & Hf1).
  into E1. clear E1. cbn [is_error].
  destruct (Write8_tame (timing_reg h) (timing_byte h it g) s1)
    as (s2 & E2 & Ht2 & Hf2).
  into E2. clear E2. cbn [is_error]. pure_step.
  pose proof (effect_trans _ _ _ _ _ _ _ Hf1 Hf2) as Hf12.
  destruct Hf12 as (Hc12 & Hk12 & Hi12). destruct (Hi12 Hini) as [Hini2 _].
  match goal with
  | |- context [bind (tsl2561Disable h bl (S n)) _ ?s3] =>
      destruct (Disable_tame_initialised n s3 Hini2) as (s4 & E3 & Ht3 & Hf3);
      into E3; clear E3;
      assert (effect s s3 (enable_events h TSL2561_ERROR_OK
                           ++ [timing_write h it g TSL2561_ERROR_OK])
                (enable_events h TSL2561_ERROR_OK
                 ++ [timing_write h it g TSL2561_ERROR_OK])) as Hf3'
        by (split; [exact Hc12 | split; [exact Hk12 | exact Hi12]])
  end.
  exists s4. split; [reflexivity|]. split; [exact Ht3|].
  pose proof (effect_trans _ _ _ _ _ _ _ Hf3' Hf3) as Hall.
  unfold SetTiming_events. rewrite !app_assoc. rewrite <- !app_assoc in Hall.
  rewrite <- !app_assoc. exact Hall.
Qed.

Lemma Init_tame (n : nat) (s : state B) :
  exists e s' d,
    tsl2561Init h bl (S (S (S n))) s = Some (e, s') /\
    timing s' = timing s /\
    calls s' = calls s ++ d /\
    cost (bus s') = (cost (bus s) + reg_ops d)%nat.
Proof.
  rewrite tsl2561Init_eq.
  destruct (i2cInit_tame s) as (ok & s1 & E & Ht1 & Hi1 & Hc1 & Hk1).
  into E. clear E. destruct ok; cbn [negb].
  - do 3 pure_step.
    match goal with
    | |- context [bind (tsl2561SetTiming h bl (S (S n)) ?it ?g) _ ?s2] =>
        destruct (SetTiming_tame_initialised n it g s2 eq_refl)
          as (s3 & E & Ht3 & Hc3 & Hk3 & _);
        into E; clear E
    end.
    exists TSL2561_ERROR_OK, s3. eexists.
    split; [reflexivity|]. split; [rewrite Ht3; exact Ht1|].
    cbn [calls bus] in Hc3, Hk3. rewrite Hc3, Hk3, Hc1, Hk1.
    split; [rewrite <- app_assoc; reflexivity|].
    rewrite reg_ops_app. reflexivity.
  - exists TSL2561_ERROR_I2CINIT, s1, [Ev_i2cInit false].
    split; [reflexivity|]. split; [exact Ht1|]. split; [exact Hc1|].
    rewrite Hk1. cbn. lia.
Qed.

Lemma lazy_tame (n : nat) (s : state B) :
  exists s' d,
    lazy_init (tsl2561Init h bl (S (S (S n)))) s = Some (tt, s') /\
    timing s' = timing s /\
    effect s s' d [].
Proof.
  destruct (_tsl2561Initialised s) eqn:Hini.
  - exists s, []. split; [apply lazy_init_set; exact Hini|].
    split; [reflexivity|]. apply effect_same; reflexivity.
  - destruct (Init_tame n s) as (e & s' & d & E & Ht & Hc & Hk).
    exists s', d. split; [eapply lazy_init_clear; eassumption|].
    split; [exact Ht|]. split; [exact Hc|]. split; [exact Hk|]. congruence.
Qed.

Lemma Enable_tame (n : nat) (s : state B) :
  exists s' d,
    tsl2561Enable h bl (S (S (S (S n)))) s = Some (TSL2561_ERROR_OK, s') /\
    timing s' = timing s /\
    effect s s' d (enable_events h TSL2561_ERROR_OK).
Proof.
  rewrite tsl2561Enable_eq.
  destruct (lazy_tame n s) as (s0 & d0 & E0 & Ht0 & Hf0). into E0. clear E0.
  destruct (Write8_tame (control_reg h) (TSL2561_CONTROL_POWERON h) s0)
    as (s1 & E & Ht & Hc & Hk & Hf).
  into E. clear E. pure_step. eexists _, (d0 ++ enable_events h TSL2561_ERROR_OK).
  split; [reflexivity|]. split; [rewrite <- Ht0, <- Ht; reflexivity|].
  apply (effect_trans s s0 _ d0 _ [] _ Hf0). split; [|split].
  - cbn [calls]. rewrite Hc, <- app_assoc. reflexivity.
  - cbn [bus]. rewrite Hk. cbn. lia.
  - intros Hini. split; [apply Hf; exact Hini | reflexivity].
Qed.

Lemma Disable_tame (n : nat) (s : state B) :
  exists s' d,
    tsl2561Disable h bl (S (S (S (S n)))) s = Some (TSL2561_ERROR_OK, s') /\
    timing s' = timing s /\
    effect s s' d (disable_events h TSL2561_ERROR_OK).
Proof.
  rewrite tsl2561Disable_eq.
  destruct (lazy_tame n s) as (s0 & d0 & E0 & Ht0 & Hf0). into E0. clear E0.
  destruct (Write8_tame (control_reg h) (TSL2561_CONTROL_POWEROFF h) s0)
    as (s1 & E & Ht & Hc & Hk & Hf).
  into E. clear E. pure_step. eexists _, (d0 ++ disable_events h TSL2561_ERROR_OK).
  split; [reflexivity|]. split; [rewrite <- Ht0, <- Ht; reflexivity|].
  apply (effect_trans s s0 _ d0 _ [] _ Hf0). split; [|split].
  - cbn [calls]. rewrite Hc, <- app_assoc. reflexivity.
  - cbn [bus]. rewrite Hk. cbn. lia.
  - intros Hini. split; [apply Hf; exact Hini | reflexivity].
Qed.

Lemma SetTiming_tame (n : nat) (it : tsl2561IntegrationTime_t)
    (g : tsl2561Gain_t) (s : state B) :
  exists s' d,
    tsl2561SetTiming h bl (S (S (S (S (S n))))) it g s
      = Some (TSL2561_ERROR_OK, s') /\
    timing s' = (it, g) /\
    effect s s' d (SetTiming_events it g).
Proof.
  rewrite tsl2561SetTiming_eq.
  destruct (lazy_tame (S n) s) as (s0 & d0 & E0 & _ & Hf0). into E0. clear E0.
  destruct (Enable_tame n s0) as (s1 & d1 & E1 & _ & Hf1). into E1. clear E1.
  cbn [is_error].
  destruct (Write8_tame (timing_reg h) (timing_byte h it g) s1)
    as (s2 & E2 & _ & Hf2).
  into E2. clear E2. cbn [is_error]. pure_step.
  match goal with
  | |- context [bind (tsl2561Disable h bl _) _ ?s3] =>
      destruct (Disable_tame n s3) as (s4 & d4 & E4 & Ht4 & Hf4);
      into E4; clear E4;
      assert (effect s2 s3 [] []) as Hf3 by (apply effect_same; reflexivity)
  end.
  exists s4. eexists. split; [reflexivity|]. split; [exact Ht4|].
  exact (effect_trans _ _ _ _ _ _ _
           (effect_trans _ _ _ _ _ _ _
              (effect_trans _ _ _ _ _ _ _
                 (effect_trans _ _ _ _ _ _ _ Hf0 Hf1) Hf2) Hf3) Hf4).
Qed.

(** The events of a complete tsl2561GetLuminosity. *)
Definition GetLuminosity_events (it : tsl2561IntegrationTime_t) (v0 v1 : Z)
    : list event :=
  enable_events h TSL2561_ERROR_OK
  ++ [Ev_systickDelay (delay_ms it);
      chan0_read h TSL2561_ERROR_OK (Some v0);
      chan1_read h TSL2561_ERROR_OK (Some v1)]
  ++ disable_events h TSL2561_ERROR_OK.

Lemma GetLuminosity_tame (n : nat) (broadband ir : Z) (s : state B) :
  exists v0 v1 s' d,
    tsl2561GetLuminosity h bl (S (S (S (S n)))) broadband ir s
      = Some ((TSL2561_ERROR_OK, v0, v1), s') /\
    0 <= v0 < 65536 /\ 0 <= v1 < 65536 /\
    timing s' = timing s /\
    effect s s' d (GetLuminosity_events (_tsl2561IntegrationTime s) v0 v1).
Proof.
  unfold tsl2561GetLuminosity.
  destruct (lazy_tame (S n) s) as (s0 & d0 & E0 & Ht0 & Hf0). into E0. clear E0.
  destruct (Enable_tame n s0) as (s1 & d1 & E1 & Ht1 & Hf1). into E1. clear E1.
  cbn [is_error]. pure_step.
  assert (_tsl2561IntegrationTime s1 = _tsl2561IntegrationTime s) as ->
    by (unfold timing in Ht0, Ht1; congruence).
  destruct (systickDelay_tame (delay_ms (_tsl2561IntegrationTime s)) s1)
    as (s2 & E2 & Ht2 & Hf2).
  into E2. clear E2.
  destruct (Read16_tame (chan_reg h (TSL2561_REGISTER_CHAN0_LOW h)) s2)
    as (v0 & s3 & E3 & Hv0 & Ht3 & Hf3).
  into E3. clear E3. cbn [fst snd is_error stored default from_option].
  destruct (Read16_tame (chan_reg h (TSL2561_REGISTER_CHAN1_LOW h)) s3)
    as (v1 & s4 & E4 & Hv1 & Ht4 & Hf4).
  into E4. clear E4. cbn [fst snd is_error stored default from_option].
  destruct (Disable_tame n s4) as (s5 & d5 & E5 & Ht5 & Hf5).
  into E5. clear E5. cbn [is_error ret].
  exists v0, v1, s5. eexists. split; [reflexivity|].
  split; [exact Hv0|]. split; [exact Hv1|].
  split; [unfold timing in *; congruence|].
  exact (effect_trans _ _ _ _ _ _ _
           (effect_trans _ _ _ _ _ _ _
              (effect_trans _ _ _ _ _ _ _
                 (effect_trans _ _ _ _ _ _ _
                    (effect_trans _ _ _ _ _ _ _ Hf0 Hf1) Hf2) Hf3) Hf4) Hf5).
Qed.

End WithTameBus.

Lemma u16_range (x : Z) : 0 <= u16 x < 65536.
Proof. unfold u16. apply Z.mod_pos_bound. lia. Qed.

Lemma Write8_one_transfer (h : tsl2561_h) {H : Type} (ext : Bus.hardware H)
    (reg value : Z) (b : Bus.i2c H) :
  length (Bus.transfers (snd (Bus.tsl2561Write8 h ext reg value b)))
  = S (length (Bus.transfers b)).
Proof.
  unfold Bus.tsl2561Write8. cbn [snd].
  match goal with
  | |- context [Bus.run_engine ext ?s'] =>
      destruct (BusFacts.run_engine_transfers ext s') as [ok ->]
  end.
  rewrite length_app. cbn [Bus.transfers Bus.store_master Bus.set_lengths length].
  rewrite BusFacts.transfers_clear_write_buffers. lia.
Qed.

Lemma Read16_one_transfer (h : tsl2561_h) {H : Type} (ext : Bus.hardware H)
    (reg : Z) (b : Bus.i2c H) :
  length (Bus.transfers (snd (Bus.tsl2561Read16 h ext reg b)))
  = S (length (Bus.transfers b)).
Proof.
  unfold Bus.tsl2561Read16. cbn [snd].
  match goal with
  | |- context [Bus.run_engine ext ?s'] =>
      destruct (BusFacts.run_engine_transfers ext s') as [ok ->]
  end.
  rewrite length_app. cbn [Bus.transfers Bus.store_master Bus.set_lengths length].
  rewrite BusFacts.transfers_clear_write_buffers. lia.
Qed.

Lemma real_bus_tame (h : tsl2561_h) {H : Type} (ext : Bus.hardware H) :
  tame (real_bus h ext) (fun b => length (Bus.transfers b)).
Proof.
  split.
  - intros r v b. split; [reflexivity|]. apply Write8_one_transfer.
  - intros r b. cbn [real_bus bus_Read16].
    pose proof (Read16_one_transfer h ext r b) as Hk.
    unfold Bus.tsl2561Read16 in *. cbn [snd] in Hk.
    eexists _, _. split; [reflexivity|]. split; [apply u16_range | exact Hk].
  - intros b. cbn [real_bus bus_i2cInit].
    destruct (Bus.i2cInit ext (Bus.hw b)) as [ok hw']. reflexivity.
  - intros ms b. reflexivity.
Qed.

(** With the bus layer of tsl2561.c, tsl2561SetTiming always returns
    TSL2561_ERROR_OK and leaves the requested integration time and gain in the
    statics, from any state and on any hardware; a tsl2561CalculateLux that
    follows computes with these two. *)
Theorem tsl2561SetTiming_then_CalculateLux (h : tsl2561_h) {H : Type}
    (ext : Bus.hardware H) (fuel : nat) (it : tsl2561IntegrationTime_t)
    (g : tsl2561Gain_t) (s : state (Bus.i2c H)) :
  (5 <= fuel)%nat ->
  exists s',
    tsl2561SetTiming h (real_bus h ext) fuel it g s = Some (TSL2561_ERROR_OK, s') /\
    timing s' = (it, g) /\
    forall ch0 ch1,
      tsl2561CalculateLux h ch0 ch1 s' = Lux.calculateLux h it g (u16 ch0) (u16 ch1).
Proof.
  intros Hfuel. destruct fuel as [|[|[|[|[|n]]]]]; try lia.
  destruct (SetTiming_tame h _ _ (real_bus_tame h ext) n it g s)
    as (s' & d & E & Ht & _).
  exists s'. split; [exact E|]. split; [exact Ht|].
  intros ch0 ch1. unfold tsl2561CalculateLux. unfold timing in Ht.
  injection Ht as -> ->. reflexivity.
Qed.

(** With the bus layer of tsl2561.c, tsl2561GetLuminosity always returns
    TSL2561_ERROR_OK, overwrites both cells with values below 65536 and
    leaves the integration time and the gain as they were, from any state and
    on any hardware. *)
Theorem tsl2561GetLuminosity_always_ok (h : tsl2561_h) {H : Type}
    (ext : Bus.hardware H) (fuel : nat) (broadband ir : Z)
    (s : state (Bus.i2c H)) :
  (4 <= fuel)%nat ->
  exists bb' ir' s',
    tsl2561GetLuminosity h (real_bus h ext) fuel broadband ir s
      = Some ((TSL2561_ERROR_OK, bb', ir'), s') /\
    0 <= bb' < 65536 /\ 0 <= ir' < 65536 /\
    timing s' = timing s.
Proof.
  intros Hfuel. destruct fuel as [|[|[|[|n]]]]; try lia.
  destruct (GetLuminosity_tame h _ _ (real_bus_tame h ext) n broadband ir s)
    as (v0 & v1 & s' & d & E & Hv0 & Hv1 & Ht & _).
  exists v0, v1, s'. auto.
Qed.

(** Bus traffic of an initialised driver over the bus layer of tsl2561.c:
    tsl2561Enable and tsl2561Disable hand one transfer to the engine,
    tsl2561SetTiming three and tsl2561GetLuminosity four. *)
Theorem bus_traffic (h : tsl2561_h) {H : Type} (ext : Bus.hardware H)
    (fuel : nat) (it : tsl2561IntegrationTime_t) (g : tsl2561Gain_t)
    (broadband ir : Z) (s : state (Bus.i2c H)) :
  _tsl2561Initialised s = true ->
  (5 <= fuel)%nat ->
  (exists e s',
      tsl2561Enable h (real_bus h ext) fuel s = Some (e, s') /\
      length (Bus.transfers (bus s')) = (length (Bus.transfers (bus s)) + 1)%nat) /\
  (exists e s',
      tsl2561Disable h (real_bus h ext) fuel s = Some (e, s') /\
      length (Bus.transfers (bus s')) = (length (Bus.transfers (bus s)) + 1)%nat) /\
  (exists e s',
      tsl2561SetTiming h (real_bus h ext) fuel it g s = Some (e, s') /\
      length (Bus.transfers (bus s')) = (length (Bus.transfers (bus s)) + 3)%nat) /\
  (exists r s',
      tsl2561GetLuminosity h (real_bus h ext) fuel broadband ir s = Some (r, s') /\
      length (Bus.transfers (bus s')) = (length (Bus.transfers (bus s)) + 4)%nat).
Proof.
  intros Hini Hfuel. destruct fuel as [|[|[|[|[|n]]]]]; try lia.
  split; [|split; [|split]].
  - destruct (Enable_tame h _ _ (real_bus_tame h ext) (S n) s)
      as (s' & d & E & _ & _ & Hk & Hf).
    destruct (Hf Hini) as [_ ->]. eauto.
  - destruct (Disable_tame h _ _ (real_bus_tame h ext) (S n) s)
      as (s' & d & E & _ & _ & Hk & Hf).
    destruct (Hf Hini) as [_ ->]. eauto.
  - destruct (SetTiming_tame h _ _ (real_bus_tame h ext) n it g s)
      as (s' & d & E & _ & _ & Hk & Hf).
    destruct (Hf Hini) as [_ ->]. eauto.
  - destruct (GetLuminosity_tame h _ _ (real_bus_tame h ext) (S n) broadband ir s)
      as (v0 & v1 & s' & d & E & _ & _ & _ & _ & Hk & Hf).
    destruct (Hf Hini) as [_ ->]. eauto.
Qed.

Definition answering_state : state (Bus.i2c unit) :=
  power_on_state BusFacts.idle_i2c.

Definition answering_initialised : state (Bus.i2c unit) :=
  {| _tsl2561Initialised := true;
     _tsl2561IntegrationTime := TSL2561_INTEGRATIONTIME_402MS;
     _tsl2561Gain := TSL2561_GAIN_0X;
     bus := BusFacts.idle_i2c; calls := [] |}.

Lemma tsl2561SetTiming_then_CalculateLux_witness :
  exists s',
    tsl2561SetTiming (datasheet_h false)
      (real_bus (datasheet_h false) BusMore.answering_hardware) 5
      TSL2561_INTEGRATIONTIME_101MS TSL2561_GAIN_16X answering_state
      = Some (TSL2561_ERROR_OK, s') /\
    timing s' = (TSL2561_INTEGRATIONTIME_101MS, TSL2561_GAIN_16X) /\
    forall ch0 ch1,
      tsl2561CalculateLux (datasheet_h false) ch0 ch1 s' =
      Lux.calculateLux (datasheet_h false)
        TSL2561_INTEGRATIONTIME_101MS TSL2561_GAIN_16X (u16 ch0) (u16 ch1).
Proof.
  apply (tsl2561SetTiming_then_CalculateLux (datasheet_h false)
           BusMore.answering_hardware 5
           TSL2561_INTEGRATIONTIME_101MS TSL2561_GAIN_16X answering_state).
  lia.
Defined.

Lemma tsl2561GetLuminosity_always_ok_witness :
  exists bb' ir' s',
    tsl2561GetLuminosity (datasheet_h false)
      (real_bus (datasheet_h false) BusMore.answering_hardware) 5 0 0
      answering_state = Some ((TSL2561_ERROR_OK, bb', ir'), s') /\
    0 <= bb' < 65536 /\ 0 <= ir' < 65536 /\
    timing s' = timing answering_state.
Proof.
  apply (tsl2561GetLuminosity_always_ok (datasheet_h false)
           BusMore.answering_hardware 5 0 0 answering_state).
  lia.
Defined.

(** The same call evaluated: both cells receive 0x1234, assembled from the
    bytes 0x34, 0x12 of the engine. *)
Example tsl2561GetLuminosity_reads_both :
  option_map fst
    (tsl2561GetLuminosity (datasheet_h false)
       (real_bus (datasheet_h false) BusMore.answering_hardware) 5 0 0
       answering_state)
  = Some (TSL2561_ERROR_OK, 0x1234, 0x1234).
Proof. reflexivity. Qed.

Lemma bus_traffic_witness :
  exists r s',
    tsl2561GetLuminosity (datasheet_h false)
      (real_bus (datasheet_h false) BusMore.answering_hardware) 5 0 0
      answering_initialised = Some (r, s') /\
    length (Bus.transfers (bus s'))
    = (length (Bus.transfers (bus answering_initialised)) + 4)%nat.
Proof.
  apply (bus_traffic (datasheet_h false) BusMore.answering_hardware 5
           TSL2561_INTEGRATIONTIME_13MS TSL2561_GAIN_0X 0 0 answering_initialised).
  - reflexivity.
  - lia.
Defined.

End RealDriver.

(** ** Character output *)

Module SysInitFacts.
Import SysInit.

Section WithConfig.
Context (cfg : projectconfig).

(** What one channel has received after the bytes [text] went through
    __putchar. *)
Definition sent_after (enabled : bool) (before text : list Z) : list Z :=
  if enabled then before ++ text else before.

Lemma sent_after_cons (enabled : bool) (before : list Z) (c : Z) (text : list Z) :
  sent_after enabled (sent_after enabled before [c]) text
  = sent_after enabled before (c :: text).
Proof.
  unfold sent_after. destruct enabled; [|reflexivity].
  rewrite <- app_assoc. reflexivity.
Qed.

Lemma putchar_effect (c : Z) (w : io) :
  uart_sent (__putchar cfg c w) = sent_after (CFG_PRINTF_UART cfg) (uart_sent w) [c] /\
  usbcdc_sent (__putchar cfg c w) =
    sent_after (CFG_PRINTF_USBCDC cfg && negb (USB_Configuration w =? 0))
      (usbcdc_sent w) [c] /\
  debug_printed (__putchar cfg c w) =
    sent_after (CFG_PRINTF_CWDEBUG cfg) (debug_printed w) [c] /\
  USB_Configuration (__putchar cfg c w) = USB_Configuration w.
Proof.
  unfold __putchar, sent_after.
  destruct (CFG_PRINTF_UART cfg), (CFG_PRINTF_USBCDC cfg), (CFG_PRINTF_CWDEBUG cfg);
    cbn; destruct (USB_Configuration w =? 0); cbn; repeat split.
Qed.

Lemma puts_text (text rest : list Z) (w : io) :
  List.Forall (fun c => c <> 0) text ->
  exists w',
    puts cfg (text ++ 0 :: rest) w = Some (0, w') /\
    uart_sent w' = sent_after (CFG_PRINTF_UART cfg) (uart_sent w) text /\
    usbcdc_sent w' =
      sent_after (CFG_PRINTF_USBCDC cfg && negb (USB_Configuration w =? 0))
        (usbcdc_sent w) text /\
    debug_printed w' = sent_after (CFG_PRINTF_CWDEBUG cfg) (debug_printed w) text /\
    USB_Configuration w' = USB_Configuration w.
Proof.
  intros Hnz. revert w. induction Hnz as [|c text Hc _ IH]; intros w.
  - exists w. cbn [app puts]. change (0 =? 0) with true. cbv iota.
    unfold sent_after.
    repeat split;
      match goal with |- context [if ?b then _ else _] => destruct b end;
      rewrite ?app_nil_r; reflexivity.
  - cbn [app puts]. destruct (Z.eqb_spec c 0) as [?|_]; [contradiction|].
    destruct (IH (__putchar cfg c w)) as (w' & E & Hu & Hs & Hd & Hf).
    destruct (putchar_effect c w) as (Pu & Ps & Pd & Pf).
    exists w'. split; [exact E|].
    rewrite Hu, Hs, Hd, Hf, Pu, Ps, Pd, Pf, !sent_after_cons. repeat split.
Qed.

(** puts sends the bytes that precede the first zero byte, in order, to every
    output that is switched on, sends nothing of what follows that byte, and
    returns 0. Output to USB is dropped while USB is not configured. *)
Theorem puts_sends_text (text rest : list Z) (w : io) :
  List.Forall (fun c => c <> 0) text ->
  exists w',
    puts cfg (text ++ 0 :: rest) w = Some (0, w') /\
    uart_sent w' = (if CFG_PRINTF_UART cfg then uart_sent w ++ text else uart_sent w) /\
    usbcdc_sent w' =
      (if CFG_PRINTF_USBCDC cfg && negb (USB_Configuration w =? 0)
       then usbcdc_sent w ++ text else usbcdc_sent w) /\
    debug_printed w' =
      (if CFG_PRINTF_CWDEBUG cfg then debug_printed w ++ text else debug_printed w).
Proof.
  intros Hnz. destruct (puts_text text rest w Hnz) as (w' & E & Hu & Hs & Hd & _).
  exists w'. auto.
Qed.

(** Two strings put one after the other leave the outputs as the
    concatenated string does. *)
Theorem puts_concatenation (a b rest rest' rest'' : list Z) (w w1 : io) :
  List.Forall (fun c => c <> 0) a ->
  List.Forall (fun c => c <> 0) b ->
  puts cfg (a ++ 0 :: rest) w = Some (0, w1) ->
  puts cfg (b ++ 0 :: rest') w1 = puts cfg ((a ++ b) ++ 0 :: rest'') w.
Proof.
  intros Ha Hb. revert w. induction Ha as [|c a Hc _ IH]; intros w E.
  - cbn in E. injection E as <-. cbn [app].
    revert w. induction Hb as [|c b Hc _ IHb]; intros w; [reflexivity|].
    cbn [app puts]. destruct (Z.eqb_spec c 0) as [?|_]; [contradiction|].
    apply IHb.
  - cbn [app puts] in *. destruct (Z.eqb_spec c 0) as [?|_]; [contradiction|].
    apply IH. exact E.
Qed.

End WithConfig.

Definition uart_only : projectconfig :=
  {| CFG_PRINTF_UART := true; CFG_PRINTF_USBCDC := true; CFG_PRINTF_CWDEBUG := false |}.

Definition usb_unconfigured : io :=
  {| uart_sent := []; usbcdc_sent := []; debug_printed := []; USB_Configuration := 0 |}.

Lemma puts_sends_text_witness :
  exists w',
    puts uart_only ([104; 105] ++ 0 :: [33]) usb_unconfigured = Some (0, w') /\
    uart_sent w' = (if CFG_PRINTF_UART uart_only
                    then uart_sent usb_unconfigured ++ [104; 105]
                    else uart_sent usb_unconfigured) /\
    usbcdc_sent w' =
      (if CFG_PRINTF_USBCDC uart_only
          && negb (USB_Configuration usb_unconfigured =? 0)
       then usbcdc_sent usb_unconfigured ++ [104; 105]
       else usbcdc_sent usb_unconfigured) /\
    debug_printed w' =
      (if CFG_PRINTF_CWDEBUG uart_only
       then debug_printed usb_unconfigured ++ [104; 105]
       else debug_printed usb_unconfigured).
Proof.
  apply (puts_sends_text uart_only [104; 105] [33] usb_unconfigured).
  repeat constructor; discriminate.
Defined.

Lemma puts_concatenation_witness :
  puts uart_only ([105] ++ 0 :: [])
    {| uart_sent := [104]; usbcdc_sent := []; debug_printed := [];
       USB_Configuration := 0 |}
  = puts uart_only (([104] ++ [105]) ++ 0 :: []) usb_unconfigured.
Proof.
  apply (puts_concatenation uart_only [104] [105] [] [] [] usb_unconfigured).
  - repeat constructor; discriminate.
  - repeat constructor; discriminate.
  - reflexivity.
Defined.

End SysInitFacts.

(** ** tsl2561CalculateLux as a function of its inputs *)

Module LuxPure.
Import Lux LuxFacts Driver DriverFacts.

(** A table whose catch-all threshold lies above the last finite one: the
    ratios in between take no branch of the chain. *)
Definition gap_T : lux_table := {|
  LUX_K1 := 0x0040; LUX_B1 := 0x01f2; LUX_M1 := 0x01be;
  LUX_K2 := 0x0080; LUX_B2 := 0x0214; LUX_M2 := 0x02d1;
  LUX_K3 := 0x00c0; LUX_B3 := 0x023f; LUX_M3 := 0x037b;
  LUX_K4 := 0x0100; LUX_B4 := 0x0270; LUX_M4 := 0x03fe;
  LUX_K5 := 0x0138; LUX_B5 := 0x016f; LUX_M5 := 0x01fc;
  LUX_K6 := 0x019a; LUX_B6 := 0x00d2; LUX_M6 := 0x00fb;
  LUX_K7 := 0x029a; LUX_B7 := 0x0018; LUX_M7 := 0x0012;
  LUX_K8 := 0x0300; LUX_B8 := 0x0000; LUX_M8 := 0x0000
|}.

(** With such a table [b] and [m] are read without having been assigned, and
    the lux is not a function of the inputs; hence the condition on the
    table below. *)
Example select_bm_gap : select_bm gap_T 717 = None.
Proof. reflexivity. Qed.

Lemma calculateLux_defined (h : tsl2561_h) (it : tsl2561IntegrationTime_t)
    (g : tsl2561Gain_t) (ch0 ch1 : Z) :
  u32 (LUX_K8 (package_table h)) <= u32 (LUX_K7 (package_table h)) ->
  exists l, calculateLux h it g ch0 ch1 = Some l.
Proof.
  intros H87. rewrite (calculateLux_selects h it g ch0 ch1 H87). eauto.
Qed.

Lemma lux_of_timing (h : tsl2561_h) {B B' : Type} (s : state B) (s' : state B')
    (ch0 ch1 l : Z) :
  timing s' = timing s ->
  tsl2561CalculateLux h ch0 ch1 s = Some l ->
  tsl2561CalculateLux h ch0 ch1 s' = Some l.
Proof.
  unfold timing, tsl2561CalculateLux. intros Ht Hl.
  injection Ht as -> ->. exact Hl.
Qed.

(** C8. For a table that closes at its last finite threshold, every call of
    tsl2561CalculateLux assigns [b] and [m] and returns a lux that is a
    function of the two counts, the integration time and the gain alone: two
    states of the driver that agree on the two timing statics, whatever their
    bus, flag and history, give the same lux, and so does the state left by
    tsl2561Enable, tsl2561Disable or tsl2561GetLuminosity, over any bus
    layer. *)
Theorem tsl2561CalculateLux_pure (h : tsl2561_h) {B B' : Type}
    (bl : bus_layer B) (s : state B) (s2 : state B') (fuel : nat)
    (ch0 ch1 broadband ir : Z) :
  u32 (LUX_K8 (package_table h)) <= u32 (LUX_K7 (package_table h)) ->
  _tsl2561IntegrationTime s = _tsl2561IntegrationTime s2 ->
  _tsl2561Gain s = _tsl2561Gain s2 ->
  (4 <= fuel)%nat ->
  exists l,
    tsl2561CalculateLux h ch0 ch1 s = Some l /\
    tsl2561CalculateLux h ch0 ch1 s2 = Some l /\
    (exists e s', tsl2561Enable h bl fuel s = Some (e, s') /\
                  tsl2561CalculateLux h ch0 ch1 s' = Some l) /\
    (exists e s', tsl2561Disable h bl fuel s = Some (e, s') /\
                  tsl2561CalculateLux h ch0 ch1 s' = Some l) /\
    (exists r s', tsl2561GetLuminosity h bl fuel broadband ir s = Some (r, s') /\
                  tsl2561CalculateLux h ch0 ch1 s' = Some l).
Proof.
  intros H87 Hit Hg Hfuel. destruct fuel as [|[|[|[|n]]]]; try lia.
  destruct (calculateLux_defined h (_tsl2561IntegrationTime s) (_tsl2561Gain s)
              (u16 ch0) (u16 ch1) H87) as [l Hl].
  exists l. split; [exact Hl|].
  split; [apply (lux_of_timing h s s2); [unfold timing; congruence | exact Hl]|].
  split; [|split].
  - destruct (Enable_spec h bl n s) as (e & s' & pre & E & _ & Ht & _).
    exists e, s'. split; [exact E|]. apply (lux_of_timing h s s'); assumption.
  - destruct (Disable_spec h bl n s) as (e & s' & pre & E & _ & Ht & _).
    exists e, s'. split; [exact E|]. apply (lux_of_timing h s s'); assumption.
  - destruct (GetLuminosity_spec h bl n broadband ir s)
      as (e & bb' & ir' & s' & d & pre & mid & E & _ & Ht & _).
    exists (e, bb', ir'), s'. split; [exact E|].
    apply (lux_of_timing h s s'); assumption.
Qed.

Lemma tsl2561CalculateLux_pure_witness :
  exists l,
    tsl2561CalculateLux (datasheet_h false) 100 30
      (initialised_state chan1_read_fails) = Some l /\
    tsl2561CalculateLux (datasheet_h false) 100 30
      (power_on_state 7%nat) = Some l /\
    (exists e s',
        tsl2561Enable (datasheet_h false) scripted_bus 4
          (initialised_state chan1_read_fails) = Some (e, s') /\
        tsl2561CalculateLux (datasheet_h false) 100 30 s' = Some l) /\
    (exists e s',
        tsl2561Disable (datasheet_h false) scripted_bus 4
          (initialised_state chan1_read_fails) = Some (e, s') /\
        tsl2561CalculateLux (datasheet_h false) 100 30 s' = Some l) /\
    (exists r s',
        tsl2561GetLuminosity (datasheet_h false) scripted_bus 4 0 0
          (initialised_state chan1_read_fails) = Some (r, s') /\
        tsl2561CalculateLux (datasheet_h false) 100 30 s' = Some l).
Proof.
  apply (tsl2561CalculateLux_pure (datasheet_h false) scripted_bus
           (initialised_state chan1_read_fails) (power_on_state 7%nat) 4
           100 30 0 0).
  - vm_compute. discriminate.
  - reflexivity.
  - reflexivity.
  - lia.
Defined.

End LuxPure.

(** ** The acquisition sequence and the count of disables *)

Module Acquisition.
Import Driver DriverFacts DriverMore RealDriver.

Ltac into E := rewrite (bind_Some _ _ _ _ _ E); cbv beta.

Ltac skip_lazy H :=
  rewrite (bind_Some _ _ _ _ _ (lazy_init_set _ _ H)); cbv beta.

Ltac pure_step :=
  unfold bind at 1; cbn [get ret log set_timing set_Initialised]; cbv beta.

Section WithTameBus.
Context (h : tsl2561_h) {B : Type} (bl : bus_layer B) (cost : B -> nat).
Context (Htame : tame bl cost).




End WithTameBus.




End Acquisition.
